(** * pytest-select: selection and deselection of collected tests

    A shallow embedding of [pytest_select/plugin.py].  The plugin reads a
    selection file into a set of patterns, partitions the collected items by
    matching every pattern against an item's node id (glob) and name
    (equality), reports the patterns that matched nothing and replaces the
    host's item list.

    Conventions of the model:
    - a Python [str] is a [string]; its characters are code points below 256;
    - a Python [set] of strings is a [gset string]; the order in which Python
      iterates over it is not fixed by the language (string hashes are salted
      per process), so it is an explicit component of the run, [set_iter];
    - exceptions, the file system, the warnings and the host's hook calls are
      threaded through a state-and-error monad [M] over a [world];
    - what the warning filters of the process make of a warning (show it,
      drop it, raise it) is a component of the run, [warning_action]. *)

From Stdlib Require Import Ascii String List.
From stdpp Require Import base gmap sets list strings sorting.

Local Open Scope string_scope.
Local Open Scope list_scope.

(** ** Python strings *)

Module PyStr.

(** [str.isspace] on one character, for code points below 256: the ASCII
    white space (TAB, LF, VT, FF, CR, FS, GS, RS, US, space) and the two
    Latin-1 ones, NEL (0x85) and no-break space (0xA0). *)
Definition isspace (c : ascii) : bool :=
  let n := nat_of_ascii c in
  (((9 <=? n) && (n <=? 13)) || ((28 <=? n) && (n <=? 32))
   || (n =? 133) || (n =? 160))%nat.

(** [s.startswith(prefix)] *)
Fixpoint startswith (prefix s : string) : bool :=
  match prefix, s with
  | "", _ => true
  | String a prefix', String b s' => Ascii.eqb a b && startswith prefix' s'
  | String _ _, "" => false
  end.

(** [s.lstrip()] *)
Fixpoint lstrip (s : string) : string :=
  match s with
  | "" => ""
  | String c s' => if isspace c then lstrip s' else s
  end.

(** [s.rstrip()] *)
Fixpoint rstrip (s : string) : string :=
  match s with
  | "" => ""
  | String c s' =>
      match rstrip s' with
      | "" => if isspace c then "" else String c ""
      | r => String c r
      end
  end.

(** [s.strip()] *)
Definition strip (s : string) : string := rstrip (lstrip s).

(** [sep.join(xs)] *)
Definition join (sep : string) (xs : list string) : string :=
  String.concat sep xs.

(** Every character of [s] is white space. *)
Fixpoint all_space (s : string) : bool :=
  match s with
  | "" => true
  | String c s' => isspace c && all_space s'
  end.

(** The first and the last character of a string, if any. *)
Definition first (s : string) : option ascii :=
  match s with "" => None | String c _ => Some c end.

Fixpoint last (s : string) : option ascii :=
  match s with
  | "" => None
  | String c "" => Some c
  | String _ s' => last s'
  end.

End PyStr.

(** ** Text files *)

Module TextFile.

Definition LF : ascii := "010"%char.
Definition CR : ascii := "013"%char.

(** Reading in text mode with the default [newline=None]: the line endings
    CR LF and CR are translated to LF. *)
Fixpoint universal_newlines (s : string) : string :=
  match s with
  | "" => ""
  | String c s' =>
      if Ascii.eqb c CR then
        match s' with
        | String c' s'' =>
            if Ascii.eqb c' LF then String LF (universal_newlines s'')
            else String LF (universal_newlines s')
        | "" => String LF ""
        end
      else String c (universal_newlines s')
  end.

(** Iterating over a text: the lines, each with its terminating LF; the
    last one has none when the text does not end in LF. *)
Fixpoint lines (s : string) : list string :=
  match s with
  | "" => []
  | String c s' =>
      if Ascii.eqb c LF then String c "" :: lines s'
      else match lines s' with
           | [] => [String c ""]
           | l :: ls => String c l :: ls
           end
  end.

(** [for line in file] on a file whose decoded content is [text]. *)
Definition iter (text : string) : list string :=
  lines (universal_newlines text).

End TextFile.

(** The one-character strings LF and CR, to write file contents with. *)
Definition nl : string := String TextFile.LF "".
Definition cr : string := String TextFile.CR "".

(** ** Glob matching *)

Module Glob.

(** Modelled from the spec: the code calls [fnmatch.fnmatch] of Python's
    standard library, which is not part of the repository.  The spec's
    glossary describes it as shell-style wildcard matching ([*], [?],
    character classes) against a whole string.  This is the case-sensitive
    matcher (on POSIX [os.path.normcase] is the identity): [*] matches any
    run of characters, [?] any one character, [[seq]] one character of
    [seq], [[!seq]] one character not in [seq], a [[] without a closing
    bracket stands for itself, every other character for itself. *)
Inductive tok : Type :=
| Star
| AnyChar
| Class (negated : bool) (body : string)
| Lit (c : ascii).

(** The text up to the first closing bracket, and the text after it. *)
Fixpoint scan_close (s : string) : option (string * string) :=
  match s with
  | "" => None
  | String c s' =>
      if Ascii.eqb c "]" then Some ("", s')
      else match scan_close s' with
           | Some (body, rest) => Some (String c body, rest)
           | None => None
           end
  end.

(** A bracket expression, read after its opening bracket: an optional [!],
    then a [']'] that stands for itself when it comes first. *)
Definition bracket (s : string) : option (bool * string * string) :=
  let '(negated, s1) :=
    match s with
    | String "!" s' => (true, s')
    | _ => (false, s)
    end in
  match s1 with
  | String "]" s2 =>
      match scan_close s2 with
      | Some (body, rest) => Some (negated, String "]" body, rest)
      | None => None
      end
  | _ =>
      match scan_close s1 with
      | Some (body, rest) => Some (negated, body, rest)
      | None => None
      end
  end.

Fixpoint translate_go (fuel : nat) (pat : string) : list tok :=
  match fuel, pat with
  | S fuel', String c pat' =>
      if Ascii.eqb c "*" then Star :: translate_go fuel' pat'
      else if Ascii.eqb c "?" then AnyChar :: translate_go fuel' pat'
      else if Ascii.eqb c "[" then
        match bracket pat' with
        | Some (negated, body, rest) =>
            Class negated body :: translate_go fuel' rest
        | None => Lit c :: translate_go fuel' pat'
        end
      else Lit c :: translate_go fuel' pat'
  | _, _ => []
  end.

Definition translate (pat : string) : list tok :=
  translate_go (String.length pat) pat.

(** Membership in the body of a bracket expression: [lo-hi] is a range of
    code points, any other character stands for itself. *)
Fixpoint in_class (c : ascii) (body : string) : bool :=
  match body with
  | "" => false
  | String lo (String "-" (String hi rest)) =>
      ((nat_of_ascii lo <=? nat_of_ascii c)%nat
       && (nat_of_ascii c <=? nat_of_ascii hi)%nat)
      || in_class c rest
  | String x rest => Ascii.eqb c x || in_class c rest
  end.

Fixpoint match_toks (ts : list tok) (s : string) : bool :=
  match ts with
  | [] => String.eqb s ""
  | Star :: ts' =>
      (fix star (s : string) : bool :=
         match_toks ts' s
         || match s with
            | "" => false
            | String _ s' => star s'
            end) s
  | AnyChar :: ts' =>
      match s with
      | "" => false
      | String _ s' => match_toks ts' s'
      end
  | Class negated body :: ts' =>
      match s with
      | "" => false
      | String c s' => xorb negated (in_class c body) && match_toks ts' s'
      end
  | Lit c :: ts' =>
      match s with
      | "" => false
      | String c' s' => Ascii.eqb c c' && match_toks ts' s'
      end
  end.

(** [fnmatch.fnmatchcase(name, pat)] *)
Definition fnmatchcase (name pat : string) : bool :=
  match_toks (translate pat) name.

End Glob.

(** ** The host: items, configuration, file system, effects *)

(** A collected test; the plugin reads [item.nodeid] and [item.name] only. *)
Record item : Type := Item { nodeid : string; name : string }.

Global Instance item_eq_dec : EqDecision item.
Proof. solve_decision. Defined.

(** The three options registered by [pytest_addoption], with their defaults
    [None], [None] and [False]. *)
Record Config : Type := MkConfig {
  selectfromfile : option string;
  deselectfromfile : option string;
  selectfailonmissing : bool
}.

Inductive option_name : Type := opt_selectfromfile | opt_deselectfromfile.

(** [config.getoption(option_name)] for the two file options. *)
Definition getoption (config : Config) (o : option_name) : option string :=
  match o with
  | opt_selectfromfile => selectfromfile config
  | opt_deselectfromfile => deselectfromfile config
  end.

(** [value is not None] *)
Definition is_not_None {A : Type} (value : option A) : bool :=
  match value with
  | Some _ => true
  | None => false
  end.

(** What the file system answers for a path.  A path that is not in the map
    is reported as not existing.  A path in the map is a file that can be
    read as text, or something that exists but cannot be opened for reading
    (a directory, a file without read permission), or a path that cannot
    even be examined: [stat] fails with an error other than "no such file"
    (a name that is too long, a directory that may not be searched), which
    [Path.exists] raises again instead of answering. *)
Inductive node : Type :=
| RegularFile (text : string)
| Unreadable
| Inaccessible.

(** What the plugin does to its surroundings, in the order it does it. *)
Inductive event : Type :=
| FsExists (path : string)            (* [Path.exists] *)
| FsOpen (path : string)              (* [Path.open] *)
| Warned (message : string)           (* a warning of [warnings.warn] shown *)
| HookDeselected (removed : list item). (* [config.hook.pytest_deselected] *)

Record world : Type := World {
  fs : gmap string node;
  items : list item;
  log : list event
}.

Inductive exn : Type :=
| UsageError (message : string)
| OSError (path : string)
| PytestSelectWarning (message : string).

(** Computations that read and change the world and may raise. *)
Definition M (A : Type) : Type := world → (exn + A) * world.

Global Instance M_ret : MRet M := λ A (a : A) w, (inr a, w).

Global Instance M_bind : MBind M := λ A B (f : A → M B) (m : M A) w,
  match m w with
  | (inl e, w') => (inl e, w')
  | (inr a, w') => f a w'
  end.

Definition raise {A : Type} (e : exn) : M A := λ w, (inl e, w).

Definition emit (e : event) : M unit :=
  λ w, (inr (), World (fs w) (items w) (log w ++ [e])).

(** [Path(path).exists()]: it answers, unless [stat] fails with an error
    other than "no such file", which it raises. *)
Definition path_exists (path : string) : M bool :=
  λ w, let w' := World (fs w) (items w) (log w ++ [FsExists path]) in
       match fs w !! path with
       | Some Inaccessible => (inl (OSError path), w')
       | Some _ => (inr true, w')
       | None => (inr false, w')
       end.

(** [Path(path).open("rt", encoding="UTF-8")] followed by the iteration over
    the file: the lines of its text; the file is closed when the [with] block
    is left. *)
Definition read_lines (path : string) : M (list string) :=
  λ w, let w' := World (fs w) (items w) (log w ++ [FsOpen path]) in
       match fs w !! path with
       | Some (RegularFile text) => (inr (TextFile.iter text), w')
       | _ => (inl (OSError path), w')
       end.

(** The host's list of collected items, the [items] argument of the hook. *)
Definition get_items : M (list item) := λ w, (inr (items w), w).

(** [items[:] = new_items] *)
Definition set_items (new_items : list item) : M unit :=
  λ w, (inr (), World (fs w) new_items (log w)).

(** What the warning filters of the run (the [-W] option, [filterwarnings],
    [PYTHONWARNINGS]) make of a [PytestSelectWarning]: it is shown (the
    actions [default], [always], [module] and [once], for a first warning),
    dropped ([ignore]) or raised as an exception ([error]). *)
Inductive filter_action : Type :=
| ActionShow
| ActionIgnore
| ActionError.

Class PyWarnings : Type := { warning_action : filter_action }.

(** [warnings.warn(message, PytestSelectWarning)] *)
Definition warn {warnings : PyWarnings} (message : string) : M unit :=
  match warning_action with
  | ActionShow => emit (Warned message)
  | ActionIgnore => mret ()
  | ActionError => raise (PytestSelectWarning message)
  end.

(** [config.hook.pytest_deselected(items=removed)] *)
Definition pytest_deselected (removed : list item) : M unit :=
  emit (HookDeselected removed).

(** [for x in xs: body(x)] *)
Fixpoint for_ {A : Type} (xs : list A) (body : A → M unit) : M unit :=
  match xs with
  | [] => mret ()
  | x :: xs' => body x;; for_ xs' body
  end.

(** The order in which Python iterates over a set of strings.  It depends on
    the hashes of the members, which are salted per process: the language
    fixes only that every member comes exactly once. *)
Class PySetOrder : Type := {
  set_iter : gset string → list string;
  set_iter_perm : ∀ s : gset string, set_iter s ≡ₚ elements s
}.

(** ** The plugin *)

Section Plugin.

(** [fnmatch.fnmatch(name, pat)] of the standard library. *)
Variable fnmatch : string → string → bool.

(** [str(Path(p))]: the text pathlib shows for a path. *)
Variable path_str : string → string.

Context {set_order : PySetOrder}.

Context {warnings : PyWarnings}.

Definition conflict_message : string :=
  "'--select-from-file' and '--deselect-from-file' can not be used together.".

Definition not_found_message (option_value : string) : string :=
  "Given selection file '" +:+ path_str option_value +:+ "' doesn't exist.".

(** [_validate_option_values(config)] *)
Definition _validate_option_values (config : Config) : M unit :=
  let is_option_conflict :=
    is_not_None (getoption config opt_selectfromfile)
    && is_not_None (getoption config opt_deselectfromfile) in
  if is_option_conflict then raise (UsageError conflict_message)
  else
    for_ [opt_selectfromfile; opt_deselectfromfile] (λ option_name,
      match getoption config option_name with
      | None => mret ()
      | Some option_value =>
          found ← path_exists option_value;
          if negb found
          then raise (UsageError (not_found_message option_value))
          else mret ()
      end).

(** The loop of [pytest_report_header]: the header of the first option
    that is given. *)
Fixpoint report_header_loop (config : Config) (fail_on_missing : bool)
    (options : list (option_name * bool)) : option (list string) :=
  match options with
  | [] => None
  | (option_name, selecting) :: options' =>
      match getoption config option_name with
      | Some option_value =>
          Some ["select: " +:+ (if negb selecting then "de" else "")
                +:+ "selecting tests from '" +:+ option_value +:+ "'"
                +:+ (if fail_on_missing
                     then ", failing on missing selection items" else "")]
      | None => report_header_loop config fail_on_missing options'
      end
  end.

(** [pytest_report_header(config)] *)
Definition pytest_report_header (config : Config) : M (option (list string)) :=
  _validate_option_values config;;
  let fail_on_missing := selectfailonmissing config in
  mret (report_header_loop config fail_on_missing
          [(opt_selectfromfile, true); (opt_deselectfromfile, false)]).

(** The set comprehension over the lines of the selection file:
    [{p.strip() for p in selection_file if not p.startswith("#")}]. *)
Definition load_patterns (selection_file : list string) : gset string :=
  list_to_set
    (PyStr.strip <$> filter (λ test_pattern,
                               PyStr.startswith "#" test_pattern = false)
                            selection_file).

(** The condition of the inner loop. *)
Definition item_matches (it : item) (test_pattern : string) : bool :=
  fnmatch (nodeid it) test_pattern || String.eqb (name it) test_pattern.

(** One round of the inner loop, on [test_patterns_that_matched] and
    [has_match]. *)
Definition try_pattern (it : item) (st : gset string * bool)
    (test_pattern : string) : gset string * bool :=
  if item_matches it test_pattern
  then ({[test_pattern]} ∪ st.1, true)
  else st.

(** One round of the loop over the items, on
    [test_patterns_that_matched], [selected_items], [deselected_items]. *)
Definition classify_item (test_patterns : gset string)
    (st : gset string * list item * list item) (it : item)
    : gset string * list item * list item :=
  let '(test_patterns_that_matched, selected_items, deselected_items) := st in
  let '(test_patterns_that_matched, has_match) :=
    foldl (try_pattern it) (test_patterns_that_matched, false)
          (set_iter test_patterns) in
  if has_match
  then (test_patterns_that_matched, selected_items ++ [it], deselected_items)
  else (test_patterns_that_matched, selected_items, deselected_items ++ [it]).

(** The loop over the items. *)
Definition classify (test_patterns : gset string) (its : list item)
    : gset string * list item * list item :=
  foldl (classify_item test_patterns) (∅, [], []) its.

(** The fixed beginning of the message, and what joins the patterns. *)
Definition missing_header : string :=
  "pytest-select: Not all test patterns matched an actual test. "
  +:+ "The patterns without matching tests are:" +:+ nl +:+ "  - ".

Definition bullet : string := nl +:+ "  - ".

(** The message of the warning and of the error. *)
Definition missing_message (test_patterns_that_did_not_match : gset string)
    : string :=
  missing_header
  +:+ PyStr.join bullet (set_iter test_patterns_that_did_not_match).

(** The computation between reading the file and reporting: the loop over
    the items, the flip of the two lists when deselecting, and the set
    difference.  The result is (kept, removed, patterns without a match). *)
Definition compute_selection (test_patterns : gset string)
    (should_select : bool) (its : list item)
    : list item * list item * gset string :=
  let '(test_patterns_that_matched, selected_items, deselected_items) :=
    classify test_patterns its in
  let '(selected_items, deselected_items) :=
    if negb should_select
    then (deselected_items, selected_items)
    else (selected_items, deselected_items) in
  let test_patterns_that_did_not_match :=
    test_patterns ∖ test_patterns_that_matched in
  (selected_items, deselected_items, test_patterns_that_did_not_match).

(** The body of the loop of [pytest_collection_modifyitems] for an option
    that is given. *)
Definition modifyitems_body (config : Config) (selection_file_name : string)
    (should_select : bool) : M unit :=
  selection_file ← read_lines selection_file_name;
  let test_patterns := load_patterns selection_file in
  its ← get_items;
  let '(selected_items, deselected_items, test_patterns_that_did_not_match) :=
    compute_selection test_patterns should_select its in
  (if bool_decide (test_patterns_that_did_not_match ≠ ∅) then
     let message := missing_message test_patterns_that_did_not_match in
     if selectfailonmissing config
     then raise (UsageError message)
     else warn message
   else mret ());;
  set_items selected_items;;
  pytest_deselected deselected_items.

(** [pytest_collection_modifyitems(session, config, items)]; [items] is the
    host's list, held in the world. *)
Definition pytest_collection_modifyitems (config : Config) : M unit :=
  _validate_option_values config;;
  for_ [(opt_selectfromfile, true); (opt_deselectfromfile, false)]
    (λ '(option_name, should_select),
      match getoption config option_name with
      | None => mret ()
      | Some selection_file_name =>
          modifyitems_body config selection_file_name should_select
      end).

End Plugin.

(** ** Notions of the specification *)

Section Notions.

Variable fnmatch : string → string → bool.

(** An item is matched when some pattern of the set matches it. *)
Definition matched (test_patterns : gset string) (it : item) : Prop :=
  set_Exists (λ test_pattern, item_matches fnmatch it test_pattern = true)
             test_patterns.

Global Instance matched_dec test_patterns it :
  Decision (matched test_patterns it).
Proof. unfold matched. apply _. Defined.

(** A pattern is used when it matches some item of the collection. *)
Definition used (its : list item) (test_pattern : string) : Prop :=
  Exists (λ it, item_matches fnmatch it test_pattern = true) its.

Global Instance used_dec its test_pattern : Decision (used its test_pattern).
Proof. unfold used. apply _. Defined.

(** The patterns of the set that match no item. *)
Definition unmatched_patterns (test_patterns : gset string)
    (its : list item) : gset string :=
  filter (λ test_pattern, ¬ used its test_pattern) test_patterns.

End Notions.

(** The selection mode of a run: the selection file and whether matched
    items are kept ([true], Select) or removed ([false], Deselect); [None]
    when no file option is given (Inactive) and when both are. *)
Definition active_mode (config : Config) : option (string * bool) :=
  match selectfromfile config, deselectfromfile config with
  | Some path, None => Some (path, true)
  | None, Some path => Some (path, false)
  | _, _ => None
  end.

(** The message as the specification words it: the patterns without a match
    in sorted order. *)
Definition sorted_missing_message (test_patterns_that_did_not_match : gset string)
    : string :=
  missing_header
  +:+ PyStr.join bullet
        (merge_sort String.le (elements test_patterns_that_did_not_match)).

(** [c in s] for a character [c]. *)
Fixpoint has_char (c : ascii) (s : string) : bool :=
  match s with
  | "" => false
  | String c' s' => Ascii.eqb c c' || has_char c s'
  end.

(** The path exists: the file system answers for it, and it is there. *)
Definition exists_in (w : world) (path : string) : Prop :=
  fs w !! path = Some Unreadable ∨ ∃ text, fs w !! path = Some (RegularFile text).

(** The events that only look at the file system. *)
Definition is_fs_event (e : event) : bool :=
  match e with
  | FsExists _ | FsOpen _ => true
  | Warned _ | HookDeselected _ => false
  end.

(** The file options that are given, in the order in which the plugin goes
    through them. *)
Definition given_paths (config : Config) : list string :=
  option_list (selectfromfile config) ++ option_list (deselectfromfile config).

(** ** Concrete runs *)

(** Two iteration orders a run can have: ascending and descending.  With two
    members, say [a] and [b], Python yields [a] first in one process and [b]
    first in another, depending on the salt of the string hash. *)
Definition ascending_order : PySetOrder := {|
  set_iter s := merge_sort String.le (elements s);
  set_iter_perm s := merge_sort_Permutation String.le (elements s)
|}.

Definition descending_order : PySetOrder := {|
  set_iter s := reverse (merge_sort String.le (elements s));
  set_iter_perm s :=
    perm_trans (reverse_Permutation (merge_sort String.le (elements s)))
               (merge_sort_Permutation String.le (elements s))
|}.

(** The items of the spec's scenarios. *)
Definition a_one : item := Item "tests/test_a.py::test_one" "test_one".
Definition a_two : item := Item "tests/test_a.py::test_two" "test_two".
Definition b_one : item := Item "tests/test_b.py::test_one" "test_one".

Definition three_items : list item := [a_one; a_two; b_one].

(** A world with one selection file, [sel.txt]. *)
Definition world_with (text : string) (its : list item) : world :=
  World {["sel.txt" := RegularFile text]} its [].

Definition select_cfg (fail_on_missing : bool) : Config :=
  MkConfig (Some "sel.txt") None fail_on_missing.

Definition deselect_cfg (fail_on_missing : bool) : Config :=
  MkConfig None (Some "sel.txt") fail_on_missing.

(** Two selection files: one of comments only, and one with a comment, a
    padded pattern, a blank line and the same pattern again. *)
Definition comments_only : string :=
  "# nothing is selected" +:+ nl +:+ "#" +:+ nl.

Definition padded_file : string :=
  "# a comment" +:+ nl +:+ "  foo  " +:+ nl +:+ nl +:+ "foo" +:+ nl.

(** A selection file with one pattern that matches and one that does not. *)
Definition partly_matching : string :=
  "tests/test_b*" +:+ nl +:+ "nothing" +:+ nl.

(** The three kinds of warning filters. *)
Definition show_warnings : PyWarnings := {| warning_action := ActionShow |}.
Definition ignore_warnings : PyWarnings := {| warning_action := ActionIgnore |}.
Definition error_warnings : PyWarnings := {| warning_action := ActionError |}.

(** The plugin on POSIX, with already normalised paths, under given warning
    filters. *)
Definition run_under (filters : PyWarnings) (order : PySetOrder)
    (config : Config) (w : world) : (exn + ()) * world :=
  pytest_collection_modifyitems (set_order := order) (warnings := filters)
    Glob.fnmatchcase id config w.

(** The same under filters that show the warning, as the default ones do. *)
Definition run (order : PySetOrder) (config : Config) (w : world)
    : (exn + ()) * world :=
  run_under show_warnings order config w.

(** * Properties *)

(** ** The models of the library functions on small inputs *)

Example strip_foo : PyStr.strip ("  foo  " +:+ nl) = "foo".
Proof. reflexivity. Qed.

Example iter_universal_newlines :
  TextFile.iter ("a" +:+ cr +:+ nl +:+ "b" +:+ cr +:+ "c" +:+ nl +:+ nl +:+ "d")
  = ["a" +:+ nl; "b" +:+ nl; "c" +:+ nl; nl; "d"].
Proof. reflexivity. Qed.

Example glob_star : Glob.fnmatchcase "tests/test_a.py::test_one" "tests/test_a.py::*" = true.
Proof. reflexivity. Qed.

Example glob_other_file : Glob.fnmatchcase "tests/test_b.py::test_one" "tests/test_a.py::*" = false.
Proof. reflexivity. Qed.

Example glob_leaf_only : Glob.fnmatchcase "tests/test_a.py::test_one" "test_one" = false.
Proof. reflexivity. Qed.

Example glob_class : Glob.fnmatchcase "test_b7" "test_[a-c][!a-z]" = true.
Proof. reflexivity. Qed.

Example glob_unclosed : Glob.fnmatchcase "a[b" "a[?" = true.
Proof. reflexivity. Qed.

(** ** Python strings *)

Module PyStrFacts.
Import PyStr.

Lemma startswith_hash (s : string) :
  startswith "#" s = true ↔ first s = Some "#"%char.
Proof.
  destruct s as [|c s]; cbn [startswith first]; [split; discriminate|].
  rewrite andb_true_r, Ascii.eqb_eq. split; [by intros <-|by intros [= <-]].
Qed.

Lemma hash_not_space : isspace "#" = false.
Proof. reflexivity. Qed.

Lemma app_cons (c : ascii) (l t : string) :
  String c l +:+ t = String c (l +:+ t).
Proof. reflexivity. Qed.

Lemma app_nil (t : string) : "" +:+ t = t.
Proof. reflexivity. Qed.

Lemma lstrip_spec (s : string) :
  ∃ l, s = l +:+ lstrip s ∧ all_space l = true
       ∧ ∀ c, first (lstrip s) = Some c → isspace c = false.
Proof.
  induction s as [|c s (l & Hs & Hl & Hfirst)]; cbn [lstrip].
  - exists "". by repeat split.
  - destruct (isspace c) eqn:Hc.
    + exists (String c l). cbn [all_space]. rewrite Hc, Hl, app_cons.
      split; [by f_equal|done].
    + exists "". rewrite app_nil. cbn [first]. repeat split.
      by intros ? [= <-].
Qed.

Lemma rstrip_empty (s : string) : rstrip s = "" ↔ all_space s = true.
Proof.
  induction s as [|c s IH]; cbn [rstrip all_space]; [done|].
  destruct (rstrip s) eqn:Hr.
  - destruct (isspace c); cbn [andb]; [|split; discriminate].
    split; [intros _; by apply IH | done].
  - split; [discriminate|]. intros [_ Hs]%andb_prop.
    apply IH in Hs. discriminate.
Qed.

Lemma rstrip_spec (s : string) :
  ∃ r, s = rstrip s +:+ r ∧ all_space r = true
       ∧ ∀ c, last (rstrip s) = Some c → isspace c = false.
Proof.
  induction s as [|c s (r & Hs & Hr & Hlast)]; cbn [rstrip].
  - exists "". by repeat split.
  - destruct (rstrip s) as [|c' t] eqn:Ht.
    + destruct (isspace c) eqn:Hc.
      * exists (String c s). rewrite app_nil. cbn [all_space].
        rewrite Hc. repeat split; [|done]. by apply rstrip_empty.
      * exists r. rewrite app_nil in Hs. rewrite app_cons, app_nil.
        cbn [last]. repeat split; [by f_equal|done|]. by intros ? [= <-].
    + exists r. rewrite app_cons. repeat split; [by f_equal|done|done].
Qed.

Lemma rstrip_first (s : string) (c : ascii) :
  first (rstrip s) = Some c → first s = Some c.
Proof.
  destruct s as [|c0 s]; cbn [rstrip first]; [done|].
  destruct (rstrip s); [destruct (isspace c0)|]; cbn [first]; done.
Qed.

(** [strip] removes white space from both ends and nothing else. *)
Lemma strip_spec (s : string) :
  ∃ l r, s = l +:+ strip s +:+ r
         ∧ all_space l = true ∧ all_space r = true
         ∧ (∀ c, first (strip s) = Some c → isspace c = false)
         ∧ (∀ c, last (strip s) = Some c → isspace c = false).
Proof.
  destruct (lstrip_spec s) as (l & Hs & Hl & Hfirst).
  destruct (rstrip_spec (lstrip s)) as (r & Hs' & Hr & Hlast).
  exists l, r. unfold strip. repeat split; [|done|done| |done].
  - by rewrite <-Hs'.
  - intros c Hc. by apply Hfirst, rstrip_first.
Qed.

Lemma lstrip_all_space (s : string) :
  all_space s = true → lstrip s = "".
Proof.
  induction s as [|c s IH]; cbn [all_space lstrip]; [done|].
  intros [-> Hs]%andb_prop. by apply IH.
Qed.

Lemma strip_all_space (s : string) : all_space s = true → strip s = "".
Proof. intros Hs. unfold strip. by rewrite lstrip_all_space. Qed.

(** A string that does not begin with white space keeps its first
    character. *)
Lemma strip_first (s : string) (c : ascii) :
  first s = Some c → isspace c = false → first (strip s) = Some c.
Proof.
  destruct s as [|c0 s]; cbn [first]; [done|]. intros [= ->] Hc.
  unfold strip. cbn [lstrip]. rewrite Hc. cbn [rstrip].
  destruct (rstrip s); [by rewrite Hc|done].
Qed.

End PyStrFacts.

(** ** Glob matching *)

Module GlobFacts.
Import Glob.

Lemma scan_close_length (s body rest : string) :
  scan_close s = Some (body, rest) → (String.length rest < String.length s)%nat.
Proof.
  revert body. induction s as [|c s IH]; intros body; cbn [scan_close].
  - discriminate.
  - destruct (Ascii.eqb c "]").
    + intros [= _ <-]. cbn [String.length]. lia.
    + destruct (scan_close s) as [[body' rest']|]; [|discriminate].
      intros [= _ <-]. specialize (IH body' eq_refl).
      cbn [String.length]. lia.
Qed.

Lemma bracket_length (s body rest : string) (negated : bool) :
  bracket s = Some (negated, body, rest) →
  (String.length rest < String.length s)%nat.
Proof.
  unfold bracket.
  set (split := match s with
                | String "!" s' => (true, s')
                | _ => (false, s)
                end).
  assert (String.length split.2 ≤ String.length s)%nat as Hsplit.
  { subst split. destruct s as [|c s]; [done|].
    destruct (ascii_dec c "!") as [->|Hc]; [cbn; lia|].
    destruct c as [[] [] [] [] [] [] [] []]; cbn [snd]; try lia.
    by destruct Hc. }
  destruct split as [neg s1]. cbn [snd] in Hsplit.
  assert (∀ s2 b r, scan_close s2 = Some (b, r)
                    → (String.length s2 ≤ String.length s)%nat
                    → (String.length r < String.length s)%nat) as Hscan.
  { intros s2 b r Hs2 Hle. apply scan_close_length in Hs2. lia. }
  destruct s1 as [|c s1].
  - cbn. discriminate.
  - destruct (ascii_dec c "]") as [->|Hc].
    + destruct (scan_close s1) as [[b r]|] eqn:Hs1; [|discriminate].
      intros [= _ _ <-]. apply (Hscan s1 b r Hs1).
      cbn [String.length] in Hsplit. lia.
    + assert (match scan_close (String c s1) with
              | Some (b, r) => Some (neg, b, r)
              | None => None
              end = Some (negated, body, rest)
              → (String.length rest < String.length s)%nat) as Hgen.
      { destruct (scan_close (String c s1)) as [[b r]|] eqn:Hs1;
          [|discriminate].
        intros [= _ _ <-]. by apply (Hscan _ b r Hs1). }
      destruct c as [[] [] [] [] [] [] [] []];
        try exact Hgen; by destruct Hc.
Qed.

(** The fuel of [translate] is enough: more of it changes nothing. *)
Lemma translate_go_fuel (fuel : nat) (pat : string) :
  (String.length pat ≤ fuel)%nat → translate_go fuel pat = translate pat.
Proof.
  unfold translate.
  assert (∀ f1 f2 p, (String.length p ≤ f1)%nat → (String.length p ≤ f2)%nat
                     → translate_go f1 p = translate_go f2 p) as Hany.
  { induction f1 as [|f1 IH]; intros f2 p Hf1 Hf2.
    - destruct p; [|cbn [String.length] in Hf1; lia]. by destruct f2.
    - destruct p as [|c p]; [by destruct f2|].
      destruct f2 as [|f2]; [cbn [String.length] in Hf2; lia|].
      cbn [String.length] in Hf1, Hf2. cbn [translate_go].
      destruct (Ascii.eqb c "*"); [f_equal; apply IH; lia|].
      destruct (Ascii.eqb c "?"); [f_equal; apply IH; lia|].
      destruct (Ascii.eqb c "["); [|f_equal; apply IH; lia].
      destruct (bracket p) as [[[neg body] rest]|] eqn:Hb;
        [|f_equal; apply IH; lia].
      apply bracket_length in Hb. f_equal. apply IH; lia. }
  intros Hfuel. by apply Hany.
Qed.

End GlobFacts.

(** ** Lists *)

Lemma filter_all {A : Type} (P : A → Prop) `{!∀ x, Decision (P x)}
    (l : list A) :
  (∀ x, P x) → filter P l = l.
Proof.
  intros HP. induction l as [|x l IH]; [done|].
  rewrite filter_cons_True by done. by f_equal.
Qed.

Lemma filter_none {A : Type} (P : A → Prop) `{!∀ x, Decision (P x)}
    (l : list A) :
  (∀ x, ¬ P x) → filter P l = [].
Proof.
  intros HP. induction l as [|x l IH]; [done|].
  by rewrite filter_cons_False.
Qed.

(** ** The two loops *)

Section Loops.

Variable fnmatch : string → string → bool.
Context {set_order : PySetOrder}.


Lemma elem_of_set_iter (s : gset string) (p : string) :
  p ∈ set_iter s ↔ p ∈ s.
Proof. by rewrite set_iter_perm, elem_of_elements. Qed.

Lemma NoDup_set_iter (s : gset string) : NoDup (set_iter s).
Proof. rewrite set_iter_perm. apply NoDup_elements. Qed.

Lemma set_iter_empty : set_iter ∅ = [].
Proof.
  apply Permutation_nil_r. rewrite set_iter_perm. by rewrite elements_empty.
Qed.

(** The inner loop adds the patterns that match the item and raises the
    flag when there is one. *)
Lemma try_patterns (it : item) (ps : list string) (acc : gset string)
    (flag : bool) :
  foldl (try_pattern fnmatch it) (acc, flag) ps
  = (acc ∪ list_to_set (filter (λ p, item_matches fnmatch it p = true) ps),
     flag || bool_decide (Exists (λ p, item_matches fnmatch it p = true) ps)).
Proof.
  revert acc flag.
  induction ps as [|p ps IH]; intros acc flag; cbn [foldl].
  - rewrite filter_nil. cbn [list_to_set].
    rewrite bool_decide_eq_false_2 by (by inversion 1).
    f_equal; [set_solver|by rewrite orb_false_r].
  - unfold try_pattern at 2. rewrite filter_cons.
    destruct (item_matches fnmatch it p) eqn:Hp; cbn [fst].
    + rewrite IH, decide_True by done. cbn [list_to_set].
      rewrite (bool_decide_eq_true_2 (Exists _ (_ :: _)))
        by (by apply Exists_cons_hd).
      f_equal; [set_solver|by rewrite orb_true_r].
    + rewrite IH, decide_False by congruence. f_equal. f_equal.
      apply bool_decide_ext. rewrite Exists_cons.
      split; [by right|intros [?|?]; [congruence|done]].
Qed.

Lemma Exists_set_iter (P : gset string) (it : item) :
  Exists (λ p, item_matches fnmatch it p = true) (set_iter P) ↔ matched fnmatch P it.
Proof.
  unfold matched, set_Exists. rewrite Exists_exists.
  by setoid_rewrite elem_of_set_iter.
Qed.

(** One round of the loop over the items. *)
Lemma classify_item_spec (P : gset string) (it : item)
    (acc : gset string) (sel desel : list item) :
  classify_item fnmatch P (acc, sel, desel) it
  = (acc ∪ filter (λ p, item_matches fnmatch it p = true) P,
     sel ++ filter (matched fnmatch P) [it],
     desel ++ filter (λ it, ¬ matched fnmatch P it) [it]).
Proof.
  unfold classify_item. rewrite try_patterns. cbn [orb].
  assert (list_to_set (filter (λ p, item_matches fnmatch it p = true) (set_iter P))
          = filter (λ p, item_matches fnmatch it p = true) P) as ->.
  { apply set_eq. intros p.
    rewrite elem_of_list_to_set, list_elem_of_filter, elem_of_filter.
    by rewrite elem_of_set_iter. }
  rewrite !filter_cons, !filter_nil.
  destruct (decide (matched fnmatch P it)) as [Hm|Hm].
  - rewrite bool_decide_eq_true_2 by (by apply Exists_set_iter).
    rewrite decide_False by tauto. by rewrite app_nil_r.
  - rewrite bool_decide_eq_false_2 by (by rewrite Exists_set_iter).
    rewrite decide_True by done. by rewrite app_nil_r.
Qed.

Lemma classify_from (P : gset string) (its : list item)
    (acc : gset string) (sel desel : list item) :
  foldl (classify_item fnmatch P) (acc, sel, desel) its
  = (acc ∪ filter (used fnmatch its) P,
     sel ++ filter (matched fnmatch P) its,
     desel ++ filter (λ it, ¬ matched fnmatch P it) its).
Proof.
  revert acc sel desel.
  induction its as [|it its IH]; intros acc sel desel; cbn [foldl].
  - rewrite !filter_nil, !app_nil_r. f_equal. f_equal.
    apply set_eq. intros p. rewrite elem_of_union, elem_of_filter.
    unfold used. rewrite Exists_nil. tauto.
  - rewrite classify_item_spec, IH.
    rewrite <-!app_assoc, <-!filter_app. cbn [app]. f_equal. f_equal.
    apply set_eq. intros p. rewrite !elem_of_union, !elem_of_filter.
    unfold used. rewrite Exists_cons. tauto.
Qed.

(** The loop over the items: the patterns that are used, the matched items
    and the other items, both in the order of the collection. *)
Lemma classify_spec (P : gset string) (its : list item) :
  classify fnmatch P its
  = (filter (used fnmatch its) P,
     filter (matched fnmatch P) its,
     filter (λ it, ¬ matched fnmatch P it) its).
Proof.
  unfold classify. rewrite classify_from. cbn [app]. f_equal. f_equal.
  apply set_eq. intros p. rewrite elem_of_union. set_solver.
Qed.

Lemma compute_selection_spec (P : gset string) (should_select : bool)
    (its : list item) :
  compute_selection fnmatch P should_select its
  = (if should_select
     then (filter (matched fnmatch P) its, filter (λ it, ¬ matched fnmatch P it) its)
     else (filter (λ it, ¬ matched fnmatch P it) its, filter (matched fnmatch P) its),
     unmatched_patterns fnmatch P its).
Proof.
  unfold compute_selection. rewrite classify_spec.
  assert (P ∖ filter (used fnmatch its) P = unmatched_patterns fnmatch P its) as ->.
  { apply set_eq. intros p. unfold unmatched_patterns.
    rewrite elem_of_difference, !elem_of_filter. tauto. }
  by destruct should_select.
Qed.

End Loops.

(** ** The hooks as functions on the world *)

(** Unfolds the operations of [M] once the world is at hand. *)
Ltac run_M :=
  unfold mbind, M_bind, mret, M_ret, raise, warn, pytest_deselected, emit,
    set_items, get_items, path_exists;
  cbn [fs items log fst snd].

Section Hooks.

Variable fnmatch : string → string → bool.
Variable path_str : string → string.
Context {set_order : PySetOrder}.
Context {warnings : PyWarnings}.

Lemma bind_run {A B : Type} (m : M A) (f : A → M B) (w : world) :
  (m ≫= f) w
  = match m w with
    | (inl e, w') => (inl e, w')
    | (inr a, w') => f a w'
    end.
Proof. reflexivity. Qed.

(** Validation raises on a conflict and touches nothing. *)
Lemma validate_conflict (config : Config) (w : world) :
  selectfromfile config ≠ None → deselectfromfile config ≠ None →
  _validate_option_values path_str config w
  = (inl (UsageError conflict_message), w).
Proof.
  intros Hs Hd. unfold _validate_option_values. cbn [getoption].
  by destruct (selectfromfile config), (deselectfromfile config).
Qed.

(** Validation of a run with one file option that names an existing path:
    one existence check. *)
Lemma validate_active (config : Config) (path : string) (sel : bool)
    (w : world) :
  active_mode config = Some (path, sel) → exists_in w path →
  _validate_option_values path_str config w
  = (inr (), World (fs w) (items w) (log w ++ [FsExists path])).
Proof.
  intros Hmode Hfile. unfold _validate_option_values, active_mode in *.
  destruct config as [[s|] [d|] f]; cbn in Hmode; simplify_eq;
    cbn [getoption selectfromfile deselectfromfile is_not_None andb for_];
    run_M; destruct Hfile as [->|[text ->]]; reflexivity.
Qed.

(** The body of the loop when the selection file can be read. *)
Lemma modifyitems_body_run (config : Config) (path text : string)
    (should_select : bool) (w : world) :
  fs w !! path = Some (RegularFile text) →
  modifyitems_body fnmatch config path should_select w
  = let '(kept, removed, unmatched) :=
      compute_selection fnmatch (load_patterns (TextFile.iter text))
                        should_select (items w) in
    if bool_decide (unmatched ≠ ∅) then
      if selectfailonmissing config
      then (inl (UsageError (missing_message unmatched)),
            World (fs w) (items w) (log w ++ [FsOpen path]))
      else match warning_action with
           | ActionShow =>
               (inr (),
                World (fs w) kept
                      (log w ++ [FsOpen path;
                                 Warned (missing_message unmatched);
                                 HookDeselected removed]))
           | ActionIgnore =>
               (inr (),
                World (fs w) kept
                      (log w ++ [FsOpen path; HookDeselected removed]))
           | ActionError =>
               (inl (PytestSelectWarning (missing_message unmatched)),
                World (fs w) (items w) (log w ++ [FsOpen path]))
           end
    else (inr (),
          World (fs w) kept (log w ++ [FsOpen path; HookDeselected removed])).
Proof.
  intros Hfile. unfold modifyitems_body. rewrite bind_run.
  unfold read_lines. rewrite Hfile. rewrite bind_run.
  unfold get_items at 1. cbn [items fs log].
  destruct (compute_selection _ _ _ _) as [[kept removed] unmatched].
  rewrite !bind_run.
  destruct (bool_decide (unmatched ≠ ∅)); [destruct (selectfailonmissing config)|].
  - reflexivity.
  - run_M. destruct warning_action; run_M; rewrite <-?app_assoc; reflexivity.
  - run_M. by rewrite <-!app_assoc.
Qed.

(** The hook of a run with one file option that names a readable file:
    the existence check, then the body of the loop, once. *)
Lemma modifyitems_active (config : Config) (path text : string)
    (should_select : bool) (w : world) :
  active_mode config = Some (path, should_select) →
  fs w !! path = Some (RegularFile text) →
  pytest_collection_modifyitems fnmatch path_str config w
  = modifyitems_body fnmatch config path should_select
      (World (fs w) (items w) (log w ++ [FsExists path])).
Proof.
  intros Hmode Hfile. unfold pytest_collection_modifyitems.
  rewrite bind_run, (validate_active _ path should_select)
    by (done || (right; by exists text)).
  unfold active_mode in Hmode.
  destruct config as [[s|] [d|] f]; cbn in Hmode; simplify_eq;
    cbn [for_ getoption selectfromfile deselectfromfile];
    unfold mbind, M_bind, mret, M_ret;
    destruct (modifyitems_body _ _ _ _ _) as [[e|[]] w']; reflexivity.
Qed.

(** The hook of such a run, in full. *)
Lemma modifyitems_run (config : Config) (path text : string)
    (should_select : bool) (w : world) :
  active_mode config = Some (path, should_select) →
  fs w !! path = Some (RegularFile text) →
  pytest_collection_modifyitems fnmatch path_str config w
  = let '(kept, removed, unmatched) :=
      compute_selection fnmatch (load_patterns (TextFile.iter text))
                        should_select (items w) in
    if bool_decide (unmatched ≠ ∅) then
      if selectfailonmissing config
      then (inl (UsageError (missing_message unmatched)),
            World (fs w) (items w) (log w ++ [FsExists path; FsOpen path]))
      else match warning_action with
           | ActionShow =>
               (inr (),
                World (fs w) kept
                      (log w ++ [FsExists path; FsOpen path;
                                 Warned (missing_message unmatched);
                                 HookDeselected removed]))
           | ActionIgnore =>
               (inr (),
                World (fs w) kept
                      (log w ++ [FsExists path; FsOpen path;
                                 HookDeselected removed]))
           | ActionError =>
               (inl (PytestSelectWarning (missing_message unmatched)),
                World (fs w) (items w)
                      (log w ++ [FsExists path; FsOpen path]))
           end
    else (inr (),
          World (fs w) kept
                (log w ++ [FsExists path; FsOpen path;
                           HookDeselected removed])).
Proof.
  intros Hmode Hfile.
  rewrite (modifyitems_active _ path text should_select) by done.
  rewrite (modifyitems_body_run _ path text) by done. cbn [fs items log].
  destruct (compute_selection _ _ _ _) as [[kept removed] unmatched].
  destruct warning_action; by rewrite <-!app_assoc.
Qed.

End Hooks.

(** ** The scenarios of the specification *)

Example scenario_select :
  run ascending_order (select_cfg false)
      (world_with ("tests/test_a.py::*" +:+ nl) three_items)
  = (inr (),
     World {["sel.txt" := RegularFile ("tests/test_a.py::*" +:+ nl)]}
           [a_one; a_two]
           [FsExists "sel.txt"; FsOpen "sel.txt"; HookDeselected [b_one]]).
Proof. by vm_compute. Qed.

Example scenario_deselect :
  run ascending_order (deselect_cfg false)
      (world_with ("tests/test_a.py::*" +:+ nl) three_items)
  = (inr (),
     World {["sel.txt" := RegularFile ("tests/test_a.py::*" +:+ nl)]}
           [b_one]
           [FsExists "sel.txt"; FsOpen "sel.txt";
            HookDeselected [a_one; a_two]]).
Proof. by vm_compute. Qed.

Example scenario_leaf_name :
  run descending_order (select_cfg true)
      (world_with ("test_one" +:+ nl) three_items)
  = (inr (),
     World {["sel.txt" := RegularFile ("test_one" +:+ nl)]}
           [a_one; b_one]
           [FsExists "sel.txt"; FsOpen "sel.txt"; HookDeselected [a_two]]).
Proof. by vm_compute. Qed.

Example scenario_missing_file :
  run ascending_order (select_cfg false) (World ∅ three_items [])
  = (inl (UsageError "Given selection file 'sel.txt' doesn't exist."),
     World ∅ three_items [FsExists "sel.txt"]).
Proof. by vm_compute. Qed.

Example scenario_unreadable_file :
  run ascending_order (deselect_cfg false)
      (World {["sel.txt" := Unreadable]} three_items [])
  = (inl (OSError "sel.txt"),
     World {["sel.txt" := Unreadable]} three_items
           [FsExists "sel.txt"; FsOpen "sel.txt"]).
Proof. by vm_compute. Qed.

Example scenario_header :
  pytest_report_header id (deselect_cfg true)
    (world_with ("test_one" +:+ nl) three_items)
  = (inr (Some ["select: deselecting tests from 'sel.txt', "
                +:+ "failing on missing selection items"]),
     World {["sel.txt" := RegularFile ("test_one" +:+ nl)]} three_items
           [FsExists "sel.txt"]).
Proof. by vm_compute. Qed.

Example scenario_warning_as_error :
  run_under error_warnings ascending_order (select_cfg false)
      (world_with ("does_not_exist" +:+ nl) three_items)
  = (inl (PytestSelectWarning (missing_header +:+ "does_not_exist")),
     World {["sel.txt" := RegularFile ("does_not_exist" +:+ nl)]}
           three_items [FsExists "sel.txt"; FsOpen "sel.txt"]).
Proof. by vm_compute. Qed.

Example scenario_warning_ignored :
  run_under ignore_warnings ascending_order (select_cfg false)
      (world_with ("does_not_exist" +:+ nl) three_items)
  = (inr (),
     World {["sel.txt" := RegularFile ("does_not_exist" +:+ nl)]} []
           [FsExists "sel.txt"; FsOpen "sel.txt";
            HookDeselected three_items]).
Proof. by vm_compute. Qed.

Example scenario_name_too_long :
  pytest_report_header id (select_cfg false)
    (World {["sel.txt" := Inaccessible]} three_items [])
  = (inl (OSError "sel.txt"),
     World {["sel.txt" := Inaccessible]} three_items [FsExists "sel.txt"]).
Proof. by vm_compute. Qed.

(** ** Matching and partitioning *)

(** C3: an item matches a pattern exactly when the pattern glob-matches the
    item's node id or equals the item's name, and this is the test the loops
    apply: the items the partition counts as matched are those with such a
    pattern in the set, the others are those without one, and the patterns
    recorded as without a match are those with no such item.  So a pattern
    equal to the name of an item selects the item whatever the glob matcher
    says, as [test_one] selects [tests/test_a.py::test_one], whose node id
    it does not glob-match. *)
Theorem item_matches_glob_or_name (fnmatch : string → string → bool)
    (set_order : PySetOrder) :
  (∀ (it : item) (test_pattern : string),
     item_matches fnmatch it test_pattern = true
     ↔ fnmatch (nodeid it) test_pattern = true ∨ test_pattern = name it)
  ∧ (∀ (test_patterns : gset string) (its : list item),
       let '(matched_items, other_items, unmatched) :=
         compute_selection fnmatch test_patterns true its in
       (∀ it, it ∈ matched_items
              ↔ it ∈ its
                ∧ ∃ p, p ∈ test_patterns
                       ∧ (fnmatch (nodeid it) p = true ∨ p = name it))
       ∧ (∀ it, it ∈ other_items
                ↔ it ∈ its
                  ∧ ∀ p, p ∈ test_patterns
                         → ¬ (fnmatch (nodeid it) p = true ∨ p = name it))
       ∧ (∀ p, p ∈ unmatched
               ↔ p ∈ test_patterns
                 ∧ ∀ it, it ∈ its
                         → ¬ (fnmatch (nodeid it) p = true ∨ p = name it)))
  ∧ (∀ (test_patterns : gset string) (its : list item) (it : item),
       it ∈ its → name it ∈ test_patterns →
       it ∈ (compute_selection fnmatch test_patterns true its).1.1)
  ∧ Glob.fnmatchcase (nodeid a_one) "test_one" = false
  ∧ compute_selection Glob.fnmatchcase {["test_one"]} true three_items
    = ([a_one; b_one], [a_two], ∅).
Proof.
  assert (∀ it p, item_matches fnmatch it p = true
                  ↔ fnmatch (nodeid it) p = true ∨ p = name it) as Hcond.
  { intros it p. unfold item_matches.
    rewrite orb_true_iff, String.eqb_eq. naive_solver. }
  assert (∀ P it, matched fnmatch P it
                  ↔ ∃ p, p ∈ P ∧ (fnmatch (nodeid it) p = true ∨ p = name it))
    as Hmatched.
  { intros P it. unfold matched, set_Exists. by setoid_rewrite Hcond. }
  assert (∀ its p, used fnmatch its p
                   ↔ ∃ it, it ∈ its
                           ∧ (fnmatch (nodeid it) p = true ∨ p = name it))
    as Hused.
  { intros its p. unfold used. rewrite Exists_exists.
    by setoid_rewrite Hcond. }
  split; [exact Hcond|]. split; [|split; [|split]].
  - intros P its. rewrite compute_selection_spec. split; [|split].
    + intros it. by rewrite list_elem_of_filter, Hmatched, (comm and).
    + intros it. rewrite list_elem_of_filter, Hmatched. split.
      * intros [Hnone Hin]. split; [done|]. intros p Hp Hm.
        apply Hnone. by exists p.
      * intros [Hin Hnone]. split; [|done]. intros (p & Hp & Hm).
        by apply (Hnone p).
    + intros p. unfold unmatched_patterns. rewrite elem_of_filter, Hused.
      split.
      * intros [Hnone Hp]. split; [done|]. intros it Hit Hm.
        apply Hnone. by exists it.
      * intros [Hp Hnone]. split; [|done]. intros (it & Hit & Hm).
        by apply (Hnone it).
  - intros P its it Hit Hname. rewrite compute_selection_spec. cbn [fst].
    apply list_elem_of_filter. split; [|done]. apply Hmatched.
    exists (name it). auto.
  - reflexivity.
  - rewrite compute_selection_spec. vm_compute. reflexivity.
Qed.

Lemma item_matches_glob_or_name_witness :
  a_one ∈ three_items ∧ name a_one ∈ ({["test_one"; "tests/nothing*"]} : gset string)
  ∧ a_one ∈ (compute_selection (set_order := ascending_order)
               Glob.fnmatchcase {["test_one"; "tests/nothing*"]} true
               three_items).1.1.
Proof.
  assert (a_one ∈ three_items) as Hin by (by left).
  assert (name a_one ∈ ({["test_one"; "tests/nothing*"]} : gset string))
    as Hname by (cbn; set_solver).
  split; [exact Hin|]. split; [exact Hname|].
  exact (proj1 (proj2 (proj2
    (item_matches_glob_or_name Glob.fnmatchcase ascending_order)))
    _ _ _ Hin Hname).
Defined.

(** C4: in either mode the kept and the removed items partition the
    collection: together they are the collection, no item is in both, and
    each list is a subsequence of the collection, so that the items keep
    their relative order. *)
Theorem kept_and_removed_partition (fnmatch : string → string → bool)
    (set_order : PySetOrder) (test_patterns : gset string)
    (should_select : bool) (its : list item) :
  let '(kept, removed, _) :=
    compute_selection fnmatch test_patterns should_select its in
  kept ++ removed ≡ₚ its
  ∧ (∀ it, it ∈ its ↔ it ∈ kept ∨ it ∈ removed)
  ∧ (∀ it, it ∈ kept → it ∉ removed)
  ∧ kept `sublist_of` its
  ∧ removed `sublist_of` its.
Proof.
  rewrite compute_selection_spec.
  pose proof (filter_app_complement (matched fnmatch test_patterns) its) as Hp.
  assert (∀ it, it ∈ filter (matched fnmatch test_patterns) its
                → it ∉ filter (λ it, ¬ matched fnmatch test_patterns it) its)
    as Hdisj.
  { intros it. rewrite !list_elem_of_filter. tauto. }
  assert (∀ it, it ∈ its
                ↔ it ∈ filter (matched fnmatch test_patterns) its
                  ∨ it ∈ filter (λ it, ¬ matched fnmatch test_patterns it) its)
    as Hcover.
  { intros it. rewrite !list_elem_of_filter.
    destruct (decide (matched fnmatch test_patterns it)); tauto. }
  destruct should_select.
  - split; [exact Hp|]. split; [exact Hcover|]. split; [exact Hdisj|].
    split; apply sublist_filter.
  - split; [by rewrite Permutation_app_comm|].
    split; [intros it; rewrite (Hcover it); tauto|].
    split; [intros it Hdesel Hsel; exact (Hdisj it Hsel Hdesel)|].
    split; apply sublist_filter.
Qed.

(** C5: deselecting keeps what selecting removes and removes what selecting
    keeps, on the same items and patterns; the patterns without a match are
    the same. *)
Theorem deselect_flips_select (fnmatch : string → string → bool)
    (set_order : PySetOrder) (test_patterns : gset string) (its : list item) :
  let '(kept_s, removed_s, unmatched_s) :=
    compute_selection fnmatch test_patterns true its in
  let '(kept_d, removed_d, unmatched_d) :=
    compute_selection fnmatch test_patterns false its in
  kept_d = removed_s ∧ removed_d = kept_s ∧ unmatched_d = unmatched_s.
Proof.
  unfold compute_selection.
  destruct (classify fnmatch test_patterns its) as [[used sel] desel].
  cbn [negb]. done.
Qed.

(** ** Loading the patterns *)

Lemma elem_of_load_patterns (selection_file : list string) (p : string) :
  p ∈ load_patterns selection_file
  ↔ ∃ line, line ∈ selection_file
            ∧ PyStr.first line ≠ Some "#"%char ∧ p = PyStr.strip line.
Proof.
  unfold load_patterns. rewrite elem_of_list_to_set, list_elem_of_fmap.
  setoid_rewrite list_elem_of_filter.
  split.
  - intros (line & -> & Hstart & Hin). exists line.
    split; [done|]. split; [|done].
    rewrite <-PyStrFacts.startswith_hash. congruence.
  - intros (line & Hin & Hfirst & ->). exists line.
    split; [done|]. split; [|done].
    rewrite <-PyStrFacts.startswith_hash in Hfirst.
    by destruct (PyStr.startswith "#" line).
Qed.

(** C6: the loaded set holds exactly the trimmed forms of the lines that do
    not begin with [#] before trimming; trimming removes white space at both
    ends and nothing else; the set is iterated without repetition; a line of
    white space only gives the empty pattern. *)
Theorem load_patterns_trims_non_comment_lines (set_order : PySetOrder)
    (selection_file : list string) :
  (∀ p, p ∈ load_patterns selection_file
        ↔ ∃ line, line ∈ selection_file
                  ∧ PyStr.first line ≠ Some "#"%char ∧ p = PyStr.strip line)
  ∧ (∀ line, ∃ l r,
        line = l +:+ PyStr.strip line +:+ r
        ∧ PyStr.all_space l = true ∧ PyStr.all_space r = true
        ∧ (∀ c, PyStr.first (PyStr.strip line) = Some c → PyStr.isspace c = false)
        ∧ (∀ c, PyStr.last (PyStr.strip line) = Some c → PyStr.isspace c = false))
  ∧ NoDup (set_iter (load_patterns selection_file))
  ∧ (∀ line, line ∈ selection_file → PyStr.all_space line = true
             → "" ∈ load_patterns selection_file).
Proof.
  split; [apply elem_of_load_patterns|].
  split; [apply PyStrFacts.strip_spec|].
  split; [apply NoDup_set_iter|].
  intros line Hin Hblank. apply elem_of_load_patterns. exists line.
  split; [done|]. split; [|by rewrite PyStrFacts.strip_all_space].
  destruct line as [|c line]; [done|]. cbn [PyStr.first PyStr.all_space] in *.
  intros [= ->]. by rewrite PyStrFacts.hash_not_space in Hblank.
Qed.

Lemma load_patterns_trims_non_comment_lines_witness :
  nl ∈ TextFile.iter padded_file ∧ PyStr.all_space nl = true
  ∧ "" ∈ load_patterns (TextFile.iter padded_file)
  ∧ load_patterns (TextFile.iter padded_file) = {[""; "foo"]}.
Proof.
  split; [vm_compute; set_solver|]. split; [reflexivity|].
  split; [|by vm_compute].
  refine (proj2 (proj2 (proj2
    (load_patterns_trims_non_comment_lines ascending_order
       (TextFile.iter padded_file)))) nl _ _).
  - vm_compute. set_solver.
  - reflexivity.
Defined.

(** C10: a line that begins with white space and whose trimmed form begins
    with [#] is no comment: the test for [#] looks at the line as read, and
    the trimmed form, [#] included, is a pattern of the set. *)
Theorem indented_hash_line_is_a_pattern (selection_file : list string)
    (line : string) (c : ascii) :
  line ∈ selection_file →
  PyStr.first line = Some c → PyStr.isspace c = true →
  PyStr.first (PyStr.strip line) = Some "#"%char →
  PyStr.startswith "#" line = false
  ∧ PyStr.strip line ∈ load_patterns selection_file
  ∧ PyStr.startswith "#" (PyStr.strip line) = true.
Proof.
  intros Hin Hfirst Hspace Hhash.
  assert (PyStr.first line ≠ Some "#"%char) as Hnot.
  { rewrite Hfirst. intros [= ->].
    by rewrite PyStrFacts.hash_not_space in Hspace. }
  split; [|split].
  - rewrite <-PyStrFacts.startswith_hash in Hnot.
    by destruct (PyStr.startswith "#" line).
  - apply elem_of_load_patterns. by exists line.
  - by apply PyStrFacts.startswith_hash.
Qed.

Lemma indented_hash_line_is_a_pattern_witness :
  PyStr.strip ("  # foo" +:+ nl) = "# foo"
  ∧ PyStr.startswith "#" ("  # foo" +:+ nl) = false
  ∧ PyStr.strip ("  # foo" +:+ nl)
    ∈ load_patterns (TextFile.iter ("a" +:+ nl +:+ "  # foo" +:+ nl))
  ∧ PyStr.startswith "#" (PyStr.strip ("  # foo" +:+ nl)) = true.
Proof.
  split; [reflexivity|].
  apply (indented_hash_line_is_a_pattern
           (TextFile.iter ("a" +:+ nl +:+ "  # foo" +:+ nl))
           ("  # foo" +:+ nl) " "%char).
  - vm_compute. set_solver.
  - reflexivity.
  - reflexivity.
  - reflexivity.
Defined.

(** ** Validation *)

(** C8: when both file options are given, validation raises the usage error
    about the conflict and leaves the world as it was: the log gets no
    existence check and no opening of a file.  Both hooks validate first, so
    both stop there. *)
Theorem conflict_before_any_file_access (fnmatch : string → string → bool)
    (path_str : string → string) (set_order : PySetOrder)
    (warnings : PyWarnings)
    (config : Config) (w : world) :
  selectfromfile config ≠ None → deselectfromfile config ≠ None →
  _validate_option_values path_str config w
  = (inl (UsageError conflict_message), w)
  ∧ pytest_collection_modifyitems fnmatch path_str config w
    = (inl (UsageError conflict_message), w)
  ∧ pytest_report_header path_str config w
    = (inl (UsageError conflict_message), w).
Proof.
  intros Hs Hd. split; [by apply validate_conflict|]. split.
  - unfold pytest_collection_modifyitems.
    by rewrite bind_run, validate_conflict.
  - unfold pytest_report_header. by rewrite bind_run, validate_conflict.
Qed.

Lemma conflict_before_any_file_access_witness :
  selectfromfile (MkConfig (Some "sel.txt") (Some "missing.txt") false) ≠ None
  ∧ deselectfromfile (MkConfig (Some "sel.txt") (Some "missing.txt") false) ≠ None
  ∧ run ascending_order
        (MkConfig (Some "sel.txt") (Some "missing.txt") false)
        (world_with ("test_one" +:+ nl) three_items)
    = (inl (UsageError conflict_message),
       world_with ("test_one" +:+ nl) three_items).
Proof.
  split; [done|]. split; [done|].
  apply (conflict_before_any_file_access Glob.fnmatchcase id ascending_order show_warnings
           (MkConfig (Some "sel.txt") (Some "missing.txt") false)
           (world_with ("test_one" +:+ nl) three_items)); done.
Defined.

(** ** Reporting and applying the selection *)

(** C7: with an empty pattern set, selecting keeps nothing and removes every
    item, deselecting keeps every item and removes nothing, and no pattern
    is without a match; the hook then returns without a warning, having
    replaced the collection and reported the removed items. *)
Theorem empty_pattern_set_selects_nothing (fnmatch : string → string → bool)
    (path_str : string → string) (set_order : PySetOrder)
    (warnings : PyWarnings)
    (config : Config) (path text : string) (should_select : bool)
    (w : world) :
  active_mode config = Some (path, should_select) →
  fs w !! path = Some (RegularFile text) →
  load_patterns (TextFile.iter text) = ∅ →
  compute_selection fnmatch (load_patterns (TextFile.iter text)) true (items w)
  = ([], items w, ∅)
  ∧ compute_selection fnmatch (load_patterns (TextFile.iter text)) false (items w)
    = (items w, [], ∅)
  ∧ pytest_collection_modifyitems fnmatch path_str config w
    = (inr (),
       World (fs w) (if should_select then [] else items w)
             (log w ++ [FsExists path; FsOpen path;
                        HookDeselected
                          (if should_select then items w else [])])).
Proof.
  intros Hmode Hfile Hempty.
  assert (∀ sel, compute_selection fnmatch ∅ sel (items w)
                 = (if sel then ([], items w) else (items w, []), ∅)) as Hsel.
  { intros sel. rewrite compute_selection_spec.
    assert (∀ it, ¬ matched fnmatch ∅ it) as Hnone.
    { intros it (p & Hp & _). set_solver. }
    rewrite (filter_none (matched fnmatch ∅)) by done.
    rewrite (filter_all (λ it, ¬ matched fnmatch ∅ it)) by done.
    f_equal; unfold unmatched_patterns; set_solver. }
  rewrite (modifyitems_run _ _ _ path text should_select) by done.
  rewrite Hempty, !Hsel.
  rewrite bool_decide_eq_false_2 by (intros Hne; by apply Hne).
  by destruct should_select.
Qed.

Lemma empty_pattern_set_selects_nothing_witness :
  load_patterns (TextFile.iter comments_only) = ∅
  ∧ run ascending_order (select_cfg true) (world_with comments_only three_items)
    = (inr (),
       World {["sel.txt" := RegularFile comments_only]} []
             [FsExists "sel.txt"; FsOpen "sel.txt"; HookDeselected three_items]).
Proof.
  split; [by vm_compute|].
  apply (empty_pattern_set_selects_nothing Glob.fnmatchcase id ascending_order show_warnings
           (select_cfg true) "sel.txt" comments_only true
           (world_with comments_only three_items)).
  - reflexivity.
  - reflexivity.
  - by vm_compute.
Defined.

(** C2: when failing on missing patterns is asked for and some pattern has
    no match, the hook raises a usage error; the collection is the one it
    was given and the log has gained the existence check and the opening of
    the file only, no report of removed items. *)
Theorem fail_on_missing_is_atomic (fnmatch : string → string → bool)
    (path_str : string → string) (set_order : PySetOrder)
    (warnings : PyWarnings)
    (config : Config) (path text : string) (should_select : bool)
    (w : world) :
  active_mode config = Some (path, should_select) →
  fs w !! path = Some (RegularFile text) →
  selectfailonmissing config = true →
  unmatched_patterns fnmatch (load_patterns (TextFile.iter text)) (items w) ≠ ∅ →
  ∃ (message : string) (w' : world),
    pytest_collection_modifyitems fnmatch path_str config w
    = (inl (UsageError message), w')
    ∧ items w' = items w
    ∧ log w' = log w ++ [FsExists path; FsOpen path]
    ∧ (∀ removed, HookDeselected removed ∈ log w'
                  → HookDeselected removed ∈ log w).
Proof.
  intros Hmode Hfile Hfail Hmissing.
  rewrite (modifyitems_run _ _ _ path text should_select) by done.
  rewrite compute_selection_spec, bool_decide_eq_true_2, Hfail by done.
  destruct should_select; (eexists _, _; split; [reflexivity|]); cbn [items log].
  all: split; [done|]; split; [done|];
    intros removed; rewrite elem_of_app; intros [?|Hnew]; [done|];
    apply list_elem_of_In in Hnew; cbn in Hnew; naive_solver.
Qed.

Lemma fail_on_missing_is_atomic_witness :
  unmatched_patterns Glob.fnmatchcase
    (load_patterns (TextFile.iter ("does_not_exist" +:+ nl))) three_items ≠ ∅
  ∧ ∃ (message : string) (w' : world),
      run ascending_order (select_cfg true)
          (world_with ("does_not_exist" +:+ nl) three_items)
      = (inl (UsageError message), w')
      ∧ items w' = three_items
      ∧ log w' = [FsExists "sel.txt"; FsOpen "sel.txt"]
      ∧ (∀ removed, HookDeselected removed ∈ log w'
                    → HookDeselected removed ∈ []).
Proof.
  assert (unmatched_patterns Glob.fnmatchcase
            (load_patterns (TextFile.iter ("does_not_exist" +:+ nl)))
            three_items ≠ ∅) as Hmissing by (by vm_compute).
  split; [exact Hmissing|].
  exact (fail_on_missing_is_atomic Glob.fnmatchcase id ascending_order show_warnings
           (select_cfg true) "sel.txt" ("does_not_exist" +:+ nl) true
           (world_with ("does_not_exist" +:+ nl) three_items)
           eq_refl eq_refl eq_refl Hmissing).
Defined.

(** C9, as the specification words it, does not hold for every run: under
    warning filters that turn the warning into an error, the call that
    warns raises, and the hook stops there: the collection is not replaced
    and the removed items are not reported. *)
Lemma warning_can_stop_the_run :
  ¬ (∀ (filters : PyWarnings) (set_order : PySetOrder) (text : string)
       (its : list item),
       unmatched_patterns Glob.fnmatchcase
         (load_patterns (TextFile.iter text)) its ≠ ∅ →
       ∃ (kept removed : list item) (message : string),
         run_under filters set_order (select_cfg false) (world_with text its)
         = (inr (),
            World {["sel.txt" := RegularFile text]} kept
                  [FsExists "sel.txt"; FsOpen "sel.txt"; Warned message;
                   HookDeselected removed])).
Proof.
  intros Hcontinues.
  destruct (Hcontinues error_warnings ascending_order
              ("does_not_exist" +:+ nl) three_items)
    as (kept & removed & message & Hrun); [by vm_compute|].
  vm_compute in Hrun. discriminate Hrun.
Qed.

(** C9, amended: when some pattern has no match and failing is not asked
    for, the hook goes on unless the warning filters turn the warning into
    an error.  Under filters that show the warning it warns once, replaces
    the collection by the kept items and reports the removed items once, in
    this order; under filters that drop the warning it does the same
    without a warning.  Under filters that raise it, the hook raises the
    warning, and the collection stays and nothing is reported. *)
Theorem missing_without_fail_warns_and_applies
    (fnmatch : string → string → bool)
    (path_str : string → string) (set_order : PySetOrder)
    (warnings : PyWarnings)
    (config : Config) (path text : string) (should_select : bool)
    (w : world) :
  active_mode config = Some (path, should_select) →
  fs w !! path = Some (RegularFile text) →
  selectfailonmissing config = false →
  unmatched_patterns fnmatch (load_patterns (TextFile.iter text)) (items w) ≠ ∅ →
  let '(kept, removed, unmatched) :=
    compute_selection fnmatch (load_patterns (TextFile.iter text))
                      should_select (items w) in
  pytest_collection_modifyitems fnmatch path_str config w
  = match warning_action with
    | ActionShow =>
        (inr (),
         World (fs w) kept
               (log w ++ [FsExists path; FsOpen path;
                          Warned (missing_message unmatched);
                          HookDeselected removed]))
    | ActionIgnore =>
        (inr (),
         World (fs w) kept
               (log w ++ [FsExists path; FsOpen path;
                          HookDeselected removed]))
    | ActionError =>
        (inl (PytestSelectWarning (missing_message unmatched)),
         World (fs w) (items w) (log w ++ [FsExists path; FsOpen path]))
    end.
Proof.
  intros Hmode Hfile Hfail Hmissing.
  rewrite (modifyitems_run _ _ _ path text should_select) by done.
  rewrite compute_selection_spec, bool_decide_eq_true_2, Hfail by done.
  by destruct should_select.
Qed.

Lemma missing_without_fail_warns_and_applies_witness :
  unmatched_patterns Glob.fnmatchcase
    (load_patterns (TextFile.iter ("does_not_exist" +:+ nl))) three_items ≠ ∅
  ∧ run ascending_order (select_cfg false)
        (world_with ("does_not_exist" +:+ nl) three_items)
    = (inr (),
       World {["sel.txt" := RegularFile ("does_not_exist" +:+ nl)]} []
             [FsExists "sel.txt"; FsOpen "sel.txt";
              Warned (missing_header +:+ "does_not_exist");
              HookDeselected three_items]).
Proof.
  assert (unmatched_patterns Glob.fnmatchcase
            (load_patterns (TextFile.iter ("does_not_exist" +:+ nl)))
            three_items ≠ ∅) as Hmissing by (by vm_compute).
  split; [exact Hmissing|].
  exact (missing_without_fail_warns_and_applies Glob.fnmatchcase id
           ascending_order show_warnings (select_cfg false) "sel.txt"
           ("does_not_exist" +:+ nl) true
           (world_with ("does_not_exist" +:+ nl) three_items)
           eq_refl eq_refl eq_refl Hmissing).
Defined.

(** ** The message about patterns without a match *)

(** C1, as the specification words it, does not hold: in a run that iterates
    over the set with [b] before [a], the patterns [a] and [b], both without
    a match, are listed as [b], [a], which is not the sorted message; a run
    that iterates the other way round lists them as [a], [b], so the text
    differs between runs with the same patterns. *)
Lemma message_is_not_sorted :
  ¬ (∀ (set_order : PySetOrder) (text : string) (its : list item)
       (message : string) (w' : world),
       run set_order (select_cfg true) (world_with text its)
       = (inl (UsageError message), w') →
       message
       = sorted_missing_message
           (unmatched_patterns Glob.fnmatchcase
              (load_patterns (TextFile.iter text)) its)).
Proof.
  intros Hsorted.
  specialize (Hsorted descending_order ("b" +:+ nl +:+ "a" +:+ nl) three_items
                (missing_header +:+ "b" +:+ bullet +:+ "a") _ eq_refl).
  vm_compute in Hsorted. discriminate Hsorted.
Qed.

(** C1, amended: the message, the same for the error and for the warning, is
    the header followed by the patterns without a match, joined by the
    bullet, in the order in which the run iterates over their set: each of
    them once and nothing else.  The text is a function of that order.  It
    is the text of the warning whatever the warning filters make of it:
    shown, or raised as an exception; dropped, it is not seen. *)
Theorem message_lists_unmatched_in_iteration_order
    (fnmatch : string → string → bool)
    (path_str : string → string) (set_order : PySetOrder)
    (warnings : PyWarnings)
    (config : Config) (path text : string) (should_select : bool)
    (w : world) :
  active_mode config = Some (path, should_select) →
  fs w !! path = Some (RegularFile text) →
  unmatched_patterns fnmatch (load_patterns (TextFile.iter text)) (items w) ≠ ∅ →
  let '(kept, removed, unmatched) :=
    compute_selection fnmatch (load_patterns (TextFile.iter text))
                      should_select (items w) in
  let message := missing_header +:+ PyStr.join bullet (set_iter unmatched) in
  set_iter unmatched ≡ₚ elements unmatched
  ∧ NoDup (set_iter unmatched)
  ∧ (∀ p, p ∈ set_iter unmatched ↔ p ∈ unmatched)
  ∧ pytest_collection_modifyitems fnmatch path_str config w
    = if selectfailonmissing config
      then (inl (UsageError message),
            World (fs w) (items w) (log w ++ [FsExists path; FsOpen path]))
      else match warning_action with
           | ActionShow =>
               (inr (),
                World (fs w) kept
                      (log w ++ [FsExists path; FsOpen path; Warned message;
                                 HookDeselected removed]))
           | ActionIgnore =>
               (inr (),
                World (fs w) kept
                      (log w ++ [FsExists path; FsOpen path;
                                 HookDeselected removed]))
           | ActionError =>
               (inl (PytestSelectWarning message),
                World (fs w) (items w)
                      (log w ++ [FsExists path; FsOpen path]))
           end.
Proof.
  intros Hmode Hfile Hmissing.
  rewrite (modifyitems_run _ _ _ path text should_select) by done.
  rewrite compute_selection_spec, bool_decide_eq_true_2 by done.
  destruct should_select; cbv zeta.
  all: split; [apply set_iter_perm|]; split; [apply NoDup_set_iter|].
  all: split; [apply elem_of_set_iter|reflexivity].
Qed.

Lemma message_lists_unmatched_in_iteration_order_witness :
  unmatched_patterns Glob.fnmatchcase
    (load_patterns (TextFile.iter ("b" +:+ nl +:+ "a" +:+ nl))) three_items ≠ ∅
  ∧ run descending_order (select_cfg true)
        (world_with ("b" +:+ nl +:+ "a" +:+ nl) three_items)
    = (inl (UsageError (missing_header +:+ "b" +:+ bullet +:+ "a")),
       World {["sel.txt" := RegularFile ("b" +:+ nl +:+ "a" +:+ nl)]}
             three_items [FsExists "sel.txt"; FsOpen "sel.txt"]).
Proof.
  assert (unmatched_patterns Glob.fnmatchcase
            (load_patterns (TextFile.iter ("b" +:+ nl +:+ "a" +:+ nl)))
            three_items ≠ ∅) as Hmissing by (by vm_compute).
  split; [exact Hmissing|].
  pose proof (message_lists_unmatched_in_iteration_order Glob.fnmatchcase id
                descending_order show_warnings (select_cfg true) "sel.txt"
                ("b" +:+ nl +:+ "a" +:+ nl) true
                (world_with ("b" +:+ nl +:+ "a" +:+ nl) three_items)
                eq_refl eq_refl Hmissing) as Hrun.
  vm_compute in Hrun. vm_compute. exact (proj2 (proj2 (proj2 Hrun))).
Defined.

(** * Further properties of the hooks *)

Section HookCases.

Variable fnmatch : string → string → bool.
Variable path_str : string → string.
Context {set_order : PySetOrder}.
Context {warnings : PyWarnings}.

Lemma validate_inactive (config : Config) (w : world) :
  selectfromfile config = None → deselectfromfile config = None →
  _validate_option_values path_str config w = (inr (), w).
Proof.
  intros Hs Hd. unfold _validate_option_values. cbn [getoption for_].
  rewrite Hs, Hd. reflexivity.
Qed.

Lemma validate_missing (config : Config) (path : string) (sel : bool)
    (w : world) :
  active_mode config = Some (path, sel) → fs w !! path = None →
  _validate_option_values path_str config w
  = (inl (UsageError (not_found_message path_str path)),
     World (fs w) (items w) (log w ++ [FsExists path])).
Proof.
  intros Hmode Hfile. unfold _validate_option_values, active_mode in *.
  destruct config as [[s|] [d|] f]; cbn in Hmode; simplify_eq;
    cbn [getoption selectfromfile deselectfromfile is_not_None andb for_];
    run_M; rewrite Hfile; reflexivity.
Qed.

Lemma validate_inaccessible (config : Config) (path : string) (sel : bool)
    (w : world) :
  active_mode config = Some (path, sel) → fs w !! path = Some Inaccessible →
  _validate_option_values path_str config w
  = (inl (OSError path),
     World (fs w) (items w) (log w ++ [FsExists path])).
Proof.
  intros Hmode Hfile. unfold _validate_option_values, active_mode in *.
  destruct config as [[s|] [d|] f]; cbn in Hmode; simplify_eq;
    cbn [getoption selectfromfile deselectfromfile is_not_None andb for_];
    run_M; rewrite Hfile; reflexivity.
Qed.

Lemma modifyitems_inactive (config : Config) (w : world) :
  selectfromfile config = None → deselectfromfile config = None →
  pytest_collection_modifyitems fnmatch path_str config w = (inr (), w).
Proof.
  intros Hs Hd. unfold pytest_collection_modifyitems.
  rewrite bind_run, validate_inactive by done.
  cbn [for_ getoption]. rewrite Hs, Hd. reflexivity.
Qed.

Lemma modifyitems_unreadable (config : Config) (path : string) (sel : bool)
    (w : world) :
  active_mode config = Some (path, sel) → fs w !! path = Some Unreadable →
  pytest_collection_modifyitems fnmatch path_str config w
  = (inl (OSError path),
     World (fs w) (items w) (log w ++ [FsExists path; FsOpen path])).
Proof.
  intros Hmode Hfile. unfold pytest_collection_modifyitems.
  rewrite bind_run, (validate_active _ _ path sel) by (done || by left).
  unfold active_mode in Hmode.
  destruct config as [[s|] [d|] f]; cbn in Hmode; simplify_eq;
    cbn [for_ getoption selectfromfile deselectfromfile];
    unfold modifyitems_body, read_lines; run_M; rewrite Hfile;
    by rewrite <-app_assoc.
Qed.

Lemma hooks_raise_what_validation_raises_aux (config : Config) (w : world) :
  selectfromfile config ≠ None → deselectfromfile config ≠ None →
  pytest_collection_modifyitems fnmatch path_str config w
  = (inl (UsageError conflict_message), w)
  ∧ pytest_report_header path_str config w
    = (inl (UsageError conflict_message), w).
Proof.
  intros Hs Hd. split.
  - unfold pytest_collection_modifyitems.
    by rewrite bind_run, validate_conflict.
  - unfold pytest_report_header. by rewrite bind_run, validate_conflict.
Qed.

(** The two lists of the partition make up the collection. *)
Lemma partition_perm (test_patterns : gset string) (should_select : bool)
    (its : list item) :
  let '(kept, removed, _) :=
    compute_selection fnmatch test_patterns should_select its in
  kept ++ removed ≡ₚ its.
Proof.
  rewrite compute_selection_spec.
  pose proof (filter_app_complement (matched fnmatch test_patterns) its) as Hp.
  destruct should_select; [done|by rewrite Permutation_app_comm].
Qed.

(** What the hook does, by the file options and the file they name. *)
Lemma modifyitems_cases (config : Config) (w : world) :
  (selectfromfile config ≠ None ∧ deselectfromfile config ≠ None)
  ∨ (selectfromfile config = None ∧ deselectfromfile config = None)
  ∨ ∃ path sel, active_mode config = Some (path, sel)
      ∧ (fs w !! path = None ∨ fs w !! path = Some Inaccessible
         ∨ fs w !! path = Some Unreadable
         ∨ ∃ text, fs w !! path = Some (RegularFile text)).
Proof.
  destruct config as [[s|] [d|] f]; cbn.
  - by left.
  - right. right. exists s, true. split; [done|].
    destruct (fs w !! s) as [[text| |]|]; eauto.
  - right. right. exists d, false. split; [done|].
    destruct (fs w !! d) as [[text| |]|]; eauto.
  - right. by left.
Qed.

End HookCases.

(** ** Validation *)

(** X1: a file option that names a path which the file system reports as
    not existing makes validation, and so both hooks, raise the usage error
    about the missing file after the one existence check: no file is opened,
    the collection stays. *)
Theorem missing_selection_file_is_a_usage_error
    (fnmatch : string → string → bool) (path_str : string → string)
    (set_order : PySetOrder)
    (warnings : PyWarnings) (config : Config) (path : string) (sel : bool)
    (w : world) :
  active_mode config = Some (path, sel) → fs w !! path = None →
  let failure :=
    (inl (UsageError ("Given selection file '" +:+ path_str path
                      +:+ "' doesn't exist.")),
     World (fs w) (items w) (log w ++ [FsExists path])) in
  _validate_option_values path_str config w = failure
  ∧ pytest_collection_modifyitems fnmatch path_str config w = failure
  ∧ pytest_report_header path_str config w
    = (inl (UsageError ("Given selection file '" +:+ path_str path
                        +:+ "' doesn't exist.")),
       World (fs w) (items w) (log w ++ [FsExists path])).
Proof.
  intros Hmode Hfile failure. subst failure.
  pose proof (validate_missing path_str config path sel w Hmode Hfile) as Hv.
  unfold not_found_message in Hv. split; [exact Hv|]. split.
  - unfold pytest_collection_modifyitems. by rewrite bind_run, Hv.
  - unfold pytest_report_header. by rewrite bind_run, Hv.
Qed.

Lemma missing_selection_file_is_a_usage_error_witness :
  active_mode (deselect_cfg true) = Some ("sel.txt", false)
  ∧ fs (World ∅ three_items []) !! "sel.txt" = None
  ∧ run ascending_order (deselect_cfg true) (World ∅ three_items [])
    = (inl (UsageError "Given selection file 'sel.txt' doesn't exist."),
       World ∅ three_items [FsExists "sel.txt"]).
Proof.
  split; [reflexivity|]. split; [reflexivity|].
  exact (proj1 (proj2
    (missing_selection_file_is_a_usage_error Glob.fnmatchcase id
       ascending_order show_warnings (deselect_cfg true) "sel.txt" false
       (World ∅ three_items []) eq_refl eq_refl))).
Defined.

(** X2: validation only looks: whatever the options and the file system, it
    leaves the file system and the collection as they are, and what it adds
    to the log is existence checks of given paths, at most one per option,
    in the order select, deselect. *)
Theorem validation_only_checks_existence (path_str : string → string)
    (config : Config) (w : world) :
  let '(_, w') := _validate_option_values path_str config w in
  fs w' = fs w ∧ items w' = items w
  ∧ ∃ checked, log w' = log w ++ (FsExists <$> checked)
               ∧ checked `prefix_of` given_paths config.
Proof.
  unfold _validate_option_values, given_paths.
  destruct config as [[s|] [d|] f];
    cbn [getoption selectfromfile deselectfromfile is_not_None andb for_
         option_list app].
  - unfold raise. split; [done|]. split; [done|]. exists [].
    split; [by rewrite app_nil_r|apply prefix_nil].
  - run_M. destruct (fs w !! s) as [[text| |]|]; cbn [negb fs items log];
      (split; [done|]); (split; [done|]); by exists [s].
  - run_M. destruct (fs w !! d) as [[text| |]|]; cbn [negb fs items log];
      (split; [done|]); (split; [done|]); by exists [d].
  - run_M. split; [done|]. split; [done|]. exists [].
    split; [by rewrite app_nil_r|done].
Qed.

(** X3: validation succeeds exactly when the two file options are not both
    given and every given path exists. *)
Theorem validation_succeeds_iff (path_str : string → string)
    (config : Config) (w : world) :
  (_validate_option_values path_str config w).1 = inr ()
  ↔ ¬ (selectfromfile config ≠ None ∧ deselectfromfile config ≠ None)
    ∧ ∀ path, path ∈ given_paths config → exists_in w path.
Proof.
  assert (∀ p, match fs w !! p with
               | Some Inaccessible | None => ¬ exists_in w p
               | Some _ => exists_in w p
               end) as Hlook.
  { intros p. unfold exists_in.
    destruct (fs w !! p) as [[text| |]|]; [by right; exists text|by left|..];
      by intros [?|[? ?]]. }
  unfold _validate_option_values, given_paths.
  destruct config as [[s|] [d|] f];
    cbn [getoption selectfromfile deselectfromfile is_not_None andb for_
         option_list app].
  - cbn. split; [discriminate|]. intros [Hboth _]. by destruct Hboth.
  - run_M. specialize (Hlook s).
    destruct (fs w !! s) as [[text| |]|]; cbn.
    + split; [|done]. intros _. split; [by intros [_ ?]|].
      by intros ? ->%list_elem_of_singleton.
    + split; [|done]. intros _. split; [by intros [_ ?]|].
      by intros ? ->%list_elem_of_singleton.
    + split; [discriminate|]. intros [_ Hall]. destruct Hlook.
      apply Hall. by apply list_elem_of_singleton.
    + split; [discriminate|]. intros [_ Hall]. destruct Hlook.
      apply Hall. by apply list_elem_of_singleton.
  - run_M. specialize (Hlook d).
    destruct (fs w !! d) as [[text| |]|]; cbn.
    + split; [|done]. intros _. split; [by intros [? _]|].
      by intros ? ->%list_elem_of_singleton.
    + split; [|done]. intros _. split; [by intros [? _]|].
      by intros ? ->%list_elem_of_singleton.
    + split; [discriminate|]. intros [_ Hall]. destruct Hlook.
      apply Hall. by apply list_elem_of_singleton.
    + split; [discriminate|]. intros [_ Hall]. destruct Hlook.
      apply Hall. by apply list_elem_of_singleton.
  - cbn. split; [|done]. intros _. split; [by intros [? _]|].
    intros path Hin. by apply elem_of_nil in Hin.
Qed.

(** X4: a validation error stops both hooks with that error and in that
    world. *)
Theorem hooks_raise_what_validation_raises
    (fnmatch : string → string → bool) (path_str : string → string)
    (set_order : PySetOrder)
    (warnings : PyWarnings) (config : Config) (w w' : world) (e : exn) :
  _validate_option_values path_str config w = (inl e, w') →
  pytest_collection_modifyitems fnmatch path_str config w = (inl e, w')
  ∧ pytest_report_header path_str config w = (inl e, w').
Proof.
  intros Hv. split.
  - unfold pytest_collection_modifyitems. by rewrite bind_run, Hv.
  - unfold pytest_report_header. by rewrite bind_run, Hv.
Qed.

Lemma hooks_raise_what_validation_raises_witness :
  run ascending_order
    (MkConfig (Some "a.txt") (Some "b.txt") false) (World ∅ three_items [])
  = (inl (UsageError conflict_message), World ∅ three_items [])
  ∧ pytest_report_header id
      (MkConfig (Some "a.txt") (Some "b.txt") false) (World ∅ three_items [])
    = (inl (UsageError conflict_message), World ∅ three_items []).
Proof.
  exact (hooks_raise_what_validation_raises Glob.fnmatchcase id
           ascending_order show_warnings (MkConfig (Some "a.txt") (Some "b.txt") false)
           (World ∅ three_items []) (World ∅ three_items [])
           (UsageError conflict_message) eq_refl).
Defined.

(** ** The report header *)

(** X5: without a file option both hooks return and leave the world as it
    is: the collection passes through, nothing is checked, opened, warned or
    reported, and there is no header. *)
Theorem inactive_run_passes_through (fnmatch : string → string → bool)
    (path_str : string → string) (set_order : PySetOrder)
    (warnings : PyWarnings)
    (config : Config) (w : world) :
  selectfromfile config = None → deselectfromfile config = None →
  pytest_collection_modifyitems fnmatch path_str config w = (inr (), w)
  ∧ pytest_report_header path_str config w = (inr None, w).
Proof.
  intros Hs Hd. split; [by apply modifyitems_inactive|].
  unfold pytest_report_header. rewrite bind_run, validate_inactive by done.
  cbn [report_header_loop getoption]. rewrite Hs, Hd. reflexivity.
Qed.

Lemma inactive_run_passes_through_witness :
  run ascending_order (MkConfig None None true)
      (world_with ("test_one" +:+ nl) three_items)
  = (inr (), world_with ("test_one" +:+ nl) three_items)
  ∧ pytest_report_header id (MkConfig None None true)
      (world_with ("test_one" +:+ nl) three_items)
    = (inr None, world_with ("test_one" +:+ nl) three_items).
Proof.
  exact (inactive_run_passes_through Glob.fnmatchcase id ascending_order show_warnings
           (MkConfig None None true)
           (world_with ("test_one" +:+ nl) three_items) eq_refl eq_refl).
Defined.

(** X6: with one file option that names an existing path, the header is one
    line: [select: ] then [de] when deselecting, then
    [selecting tests from '<path>'] with the path as given, then the clause
    about failing when that is asked for.  The header checks that the path
    exists and does not open it. *)
Theorem report_header_line (path_str : string → string) (config : Config)
    (path : string) (sel : bool) (w : world) :
  active_mode config = Some (path, sel) → exists_in w path →
  pytest_report_header path_str config w
  = (inr (Some ["select: " +:+ (if sel then "" else "de")
                +:+ "selecting tests from '" +:+ path +:+ "'"
                +:+ (if selectfailonmissing config
                     then ", failing on missing selection items" else "")]),
     World (fs w) (items w) (log w ++ [FsExists path])).
Proof.
  intros Hmode Hfile. unfold pytest_report_header.
  rewrite bind_run, (validate_active _ _ path sel) by done.
  unfold active_mode in Hmode.
  destruct config as [[s|] [d|] f]; cbn in Hmode; simplify_eq; reflexivity.
Qed.

Lemma report_header_line_witness :
  exists_in (World {["sel.txt" := Unreadable]} [] []) "sel.txt"
  ∧ pytest_report_header id (select_cfg false)
      (World {["sel.txt" := Unreadable]} [] [])
    = (inr (Some ["select: selecting tests from 'sel.txt'"]),
       World {["sel.txt" := Unreadable]} [] [FsExists "sel.txt"]).
Proof.
  assert (exists_in (World {["sel.txt" := Unreadable]} [] []) "sel.txt")
    as Hfile by (by left).
  split; [exact Hfile|].
  exact (report_header_line id (select_cfg false) "sel.txt" true
           (World {["sel.txt" := Unreadable]} [] []) eq_refl Hfile).
Defined.

(** ** The collection hook *)

(** X7: when the selection file exists but cannot be opened for reading, the
    hook raises the error of the opening; the collection stays and nothing
    is warned or reported. *)
Theorem unreadable_selection_file_raises (fnmatch : string → string → bool)
    (path_str : string → string) (set_order : PySetOrder)
    (warnings : PyWarnings)
    (config : Config) (path : string) (sel : bool) (w : world) :
  active_mode config = Some (path, sel) → fs w !! path = Some Unreadable →
  pytest_collection_modifyitems fnmatch path_str config w
  = (inl (OSError path),
     World (fs w) (items w) (log w ++ [FsExists path; FsOpen path])).
Proof. apply modifyitems_unreadable. Qed.

Lemma unreadable_selection_file_raises_witness :
  run ascending_order (select_cfg false)
      (World {["sel.txt" := Unreadable]} three_items [])
  = (inl (OSError "sel.txt"),
     World {["sel.txt" := Unreadable]} three_items
           [FsExists "sel.txt"; FsOpen "sel.txt"]).
Proof.
  exact (unreadable_selection_file_raises Glob.fnmatchcase id ascending_order show_warnings
           (select_cfg false) "sel.txt" true
           (World {["sel.txt" := Unreadable]} three_items [])
           eq_refl eq_refl).
Defined.

(** X8: whenever the hook raises, whatever the error, the collection and the
    file system are as before, and the log has gained file-system events
    only: no warning and no report of removed items. *)
Theorem every_failure_leaves_the_collection
    (fnmatch : string → string → bool) (path_str : string → string)
    (set_order : PySetOrder)
    (warnings : PyWarnings) (config : Config) (w w' : world) (e : exn) :
  pytest_collection_modifyitems fnmatch path_str config w = (inl e, w') →
  items w' = items w ∧ fs w' = fs w
  ∧ ∃ added, log w' = log w ++ added
             ∧ Forall (λ ev, is_fs_event ev = true) added.
Proof.
  intros Hrun.
  destruct (modifyitems_cases config w)
    as [[Hs Hd]|[[Hs Hd]|(path & sel & Hmode & Hfile)]].
  - rewrite (proj1 (hooks_raise_what_validation_raises_aux
                      fnmatch path_str config w Hs Hd)) in Hrun.
    simplify_eq. split; [done|]. split; [done|]. exists [].
    by rewrite app_nil_r.
  - rewrite modifyitems_inactive in Hrun by done. discriminate.
  - destruct Hfile as [Hfile|[Hfile|[Hfile|[text Hfile]]]].
    + pose proof (validate_missing path_str config path sel w Hmode Hfile) as Hv.
      unfold pytest_collection_modifyitems in Hrun.
      rewrite bind_run, Hv in Hrun. simplify_eq. cbn [items fs log].
      split; [done|]. split; [done|]. exists [FsExists path].
      split; [done|]. by repeat constructor.
    + pose proof (validate_inaccessible path_str config path sel w Hmode Hfile)
        as Hv.
      unfold pytest_collection_modifyitems in Hrun.
      rewrite bind_run, Hv in Hrun. simplify_eq. cbn [items fs log].
      split; [done|]. split; [done|]. exists [FsExists path].
      split; [done|]. by repeat constructor.
    + rewrite (modifyitems_unreadable _ _ _ path sel) in Hrun by done.
      simplify_eq. cbn [items fs log]. split; [done|]. split; [done|].
      exists [FsExists path; FsOpen path]. split; [done|].
      by repeat constructor.
    + rewrite (modifyitems_run _ _ _ path text sel) in Hrun by done.
      destruct (compute_selection _ _ _ _) as [[kept removed] unmatched].
      destruct (bool_decide _);
        [destruct (selectfailonmissing config); [|destruct warning_action]|];
        simplify_eq.
      all: cbn [items fs log]; (split; [done|]); (split; [done|]);
        exists [FsExists path; FsOpen path]; (split; [done|]);
        by repeat constructor.
Qed.

Lemma every_failure_leaves_the_collection_witness :
  run ascending_order (deselect_cfg true)
      (world_with ("test_one" +:+ nl +:+ "test_three" +:+ nl) three_items)
  = (inl (UsageError (missing_header +:+ "test_three")),
     World {["sel.txt" :=
               RegularFile ("test_one" +:+ nl +:+ "test_three" +:+ nl)]}
           three_items [FsExists "sel.txt"; FsOpen "sel.txt"])
  ∧ items (World {["sel.txt" :=
               RegularFile ("test_one" +:+ nl +:+ "test_three" +:+ nl)]}
           three_items [FsExists "sel.txt"; FsOpen "sel.txt"])
    = three_items.
Proof.
  assert (run ascending_order (deselect_cfg true)
            (world_with ("test_one" +:+ nl +:+ "test_three" +:+ nl) three_items)
          = (inl (UsageError (missing_header +:+ "test_three")),
             World {["sel.txt" :=
               RegularFile ("test_one" +:+ nl +:+ "test_three" +:+ nl)]}
               three_items [FsExists "sel.txt"; FsOpen "sel.txt"])) as Hrun
    by (vm_compute; reflexivity).
  split; [exact Hrun|].
  exact (proj1 (every_failure_leaves_the_collection Glob.fnmatchcase id
                  ascending_order show_warnings (deselect_cfg true) _ _ _ Hrun)).
Defined.

(** X9: whenever the hook returns, no item is lost or made up.  Without a
    file option the world is as before.  With one, the hook checks and opens
    the file, warns at most once, reports the removed items once, as the
    last thing it does, and the collection it leaves together with the
    removed items is the collection it was given. *)
Theorem every_success_keeps_or_reports_each_item
    (fnmatch : string → string → bool) (path_str : string → string)
    (set_order : PySetOrder)
    (warnings : PyWarnings) (config : Config) (w w' : world) :
  pytest_collection_modifyitems fnmatch path_str config w = (inr (), w') →
  match active_mode config with
  | None => w' = w
  | Some (path, _) =>
      fs w' = fs w
      ∧ ∃ (warned : list string) (removed : list item),
          log w' = log w ++ [FsExists path; FsOpen path]
                   ++ (Warned <$> warned) ++ [HookDeselected removed]
          ∧ (length warned ≤ 1)%nat
          ∧ items w' ++ removed ≡ₚ items w
  end.
Proof.
  intros Hrun.
  destruct (modifyitems_cases config w)
    as [[Hs Hd]|[[Hs Hd]|(path & sel & Hmode & Hfile)]].
  - rewrite (proj1 (hooks_raise_what_validation_raises_aux
                      fnmatch path_str config w Hs Hd)) in Hrun.
    discriminate.
  - rewrite modifyitems_inactive in Hrun by done. simplify_eq.
    unfold active_mode. by rewrite Hs, Hd.
  - rewrite Hmode. destruct Hfile as [Hfile|[Hfile|[Hfile|[text Hfile]]]].
    + pose proof (validate_missing path_str config path sel w Hmode Hfile) as Hv.
      unfold pytest_collection_modifyitems in Hrun.
      rewrite bind_run, Hv in Hrun. discriminate.
    + pose proof (validate_inaccessible path_str config path sel w Hmode Hfile)
        as Hv.
      unfold pytest_collection_modifyitems in Hrun.
      rewrite bind_run, Hv in Hrun. discriminate.
    + rewrite (modifyitems_unreadable _ _ _ path sel) in Hrun by done.
      discriminate.
    + rewrite (modifyitems_run _ _ _ path text sel) in Hrun by done.
      pose proof (partition_perm fnmatch
                    (load_patterns (TextFile.iter text)) sel (items w)) as Hp.
      destruct (compute_selection _ _ _ _) as [[kept removed] unmatched].
      destruct (bool_decide _);
        [destruct (selectfailonmissing config); [|destruct warning_action]|];
        simplify_eq; cbn [items fs log]; (split; [done|]).
      * exists [missing_message unmatched], removed.
        split; [reflexivity|]. split; [cbn; lia|done].
      * exists [], removed. split; [reflexivity|]. split; [cbn; lia|done].
      * exists [], removed. split; [reflexivity|]. split; [cbn; lia|done].
Qed.

Lemma every_success_keeps_or_reports_each_item_witness :
  run descending_order (select_cfg false)
      (world_with partly_matching three_items)
  = (inr (),
     World {["sel.txt" := RegularFile partly_matching]} [b_one]
           [FsExists "sel.txt"; FsOpen "sel.txt";
            Warned (missing_header +:+ "nothing");
            HookDeselected [a_one; a_two]])
  ∧ ∃ (warned : list string) (removed : list item),
      [FsExists "sel.txt"; FsOpen "sel.txt";
       Warned (missing_header +:+ "nothing"); HookDeselected [a_one; a_two]]
      = [] ++ [FsExists "sel.txt"; FsOpen "sel.txt"]
        ++ (Warned <$> warned) ++ [HookDeselected removed]
      ∧ (length warned ≤ 1)%nat
      ∧ [b_one] ++ removed ≡ₚ three_items.
Proof.
  assert (run descending_order (select_cfg false)
            (world_with partly_matching three_items)
          = (inr (),
             World {["sel.txt" := RegularFile partly_matching]} [b_one]
               [FsExists "sel.txt"; FsOpen "sel.txt";
                Warned (missing_header +:+ "nothing");
                HookDeselected [a_one; a_two]])) as Hrun
    by (vm_compute; reflexivity).
  split; [exact Hrun|].
  exact (proj2 (every_success_keeps_or_reports_each_item Glob.fnmatchcase id
                  descending_order show_warnings (select_cfg false) _ _ Hrun)).
Defined.

(** X10: when every pattern has a match, asking to fail on missing patterns
    changes nothing: two configurations with the same file options give the
    same outcome, a return without warning. *)
Theorem fail_on_missing_is_idle_when_all_match
    (fnmatch : string → string → bool) (path_str : string → string)
    (set_order : PySetOrder)
    (warnings : PyWarnings) (config config' : Config) (path text : string)
    (sel : bool) (w : world) :
  active_mode config = Some (path, sel) →
  active_mode config' = Some (path, sel) →
  fs w !! path = Some (RegularFile text) →
  unmatched_patterns fnmatch (load_patterns (TextFile.iter text)) (items w) = ∅ →
  pytest_collection_modifyitems fnmatch path_str config w
  = pytest_collection_modifyitems fnmatch path_str config' w
  ∧ ∃ kept removed,
      pytest_collection_modifyitems fnmatch path_str config w
      = (inr (),
         World (fs w) kept
               (log w ++ [FsExists path; FsOpen path; HookDeselected removed])).
Proof.
  intros Hmode Hmode' Hfile Hall.
  rewrite !(modifyitems_run _ _ _ path text sel) by done.
  rewrite compute_selection_spec, Hall.
  rewrite bool_decide_eq_false_2 by (intros Hne; by apply Hne).
  destruct sel; (split; [reflexivity|]); by eexists _, _.
Qed.

Lemma fail_on_missing_is_idle_when_all_match_witness :
  unmatched_patterns Glob.fnmatchcase
    (load_patterns (TextFile.iter ("test_two" +:+ nl))) three_items = ∅
  ∧ run ascending_order (select_cfg true)
        (world_with ("test_two" +:+ nl) three_items)
    = run ascending_order (select_cfg false)
        (world_with ("test_two" +:+ nl) three_items).
Proof.
  assert (unmatched_patterns Glob.fnmatchcase
            (load_patterns (TextFile.iter ("test_two" +:+ nl))) three_items
          = ∅) as Hall by (vm_compute; reflexivity).
  split; [exact Hall|].
  exact (proj1 (fail_on_missing_is_idle_when_all_match Glob.fnmatchcase id
                  ascending_order show_warnings (select_cfg true) (select_cfg false)
                  "sel.txt" ("test_two" +:+ nl) true
                  (world_with ("test_two" +:+ nl) three_items)
                  eq_refl eq_refl eq_refl Hall)).
Defined.

(** X24: a file option that names a path the file system cannot examine
    (the existence check itself fails, as for a name that is too long)
    makes validation, and so both hooks, raise the error of that check, not
    a usage error; no file is opened and the collection stays. *)
Theorem inaccessible_path_raises_the_os_error
    (fnmatch : string → string → bool) (path_str : string → string)
    (set_order : PySetOrder) (warnings : PyWarnings) (config : Config)
    (path : string) (sel : bool) (w : world) :
  active_mode config = Some (path, sel) → fs w !! path = Some Inaccessible →
  _validate_option_values path_str config w
  = (inl (OSError path), World (fs w) (items w) (log w ++ [FsExists path]))
  ∧ pytest_collection_modifyitems fnmatch path_str config w
    = (inl (OSError path), World (fs w) (items w) (log w ++ [FsExists path]))
  ∧ pytest_report_header path_str config w
    = (inl (OSError path), World (fs w) (items w) (log w ++ [FsExists path])).
Proof.
  intros Hmode Hfile.
  pose proof (validate_inaccessible path_str config path sel w Hmode Hfile)
    as Hv.
  split; [exact Hv|]. split.
  - unfold pytest_collection_modifyitems. by rewrite bind_run, Hv.
  - unfold pytest_report_header. by rewrite bind_run, Hv.
Qed.

Lemma inaccessible_path_raises_the_os_error_witness :
  run ascending_order (select_cfg false)
      (World {["sel.txt" := Inaccessible]} three_items [])
  = (inl (OSError "sel.txt"),
     World {["sel.txt" := Inaccessible]} three_items [FsExists "sel.txt"]).
Proof.
  exact (proj1 (proj2
    (inaccessible_path_raises_the_os_error Glob.fnmatchcase id
       ascending_order show_warnings (select_cfg false) "sel.txt" true
       (World {["sel.txt" := Inaccessible]} three_items [])
       eq_refl eq_refl))).
Defined.



(** ** The partition *)

Section PartitionFacts.

Variable fnmatch : string → string → bool.

Lemma matched_iff (P : gset string) (it : item) :
  matched fnmatch P it
  ↔ ∃ p, p ∈ P ∧ (fnmatch (nodeid it) p = true ∨ name it = p).
Proof.
  unfold matched, set_Exists, item_matches.
  setoid_rewrite orb_true_iff. by setoid_rewrite String.eqb_eq.
Qed.

Lemma used_iff (its : list item) (p : string) :
  used fnmatch its p
  ↔ ∃ it, it ∈ its ∧ (fnmatch (nodeid it) p = true ∨ name it = p).
Proof.
  unfold used, item_matches. rewrite Exists_exists.
  setoid_rewrite orb_true_iff. by setoid_rewrite String.eqb_eq.
Qed.

Lemma matched_used (P : gset string) (its : list item) (it : item)
    (p : string) :
  it ∈ its → p ∈ P → item_matches fnmatch it p = true →
  matched fnmatch P it ∧ used fnmatch its p.
Proof.
  intros Hit Hp Hm. split; [by exists p|].
  apply Exists_exists. by exists it.
Qed.

Lemma filter_sublist_impl {A : Type} (P Q : A → Prop)
    `{!∀ x, Decision (P x)} `{!∀ x, Decision (Q x)} (l : list A) :
  (∀ x, P x → Q x) → filter P l `sublist_of` filter Q l.
Proof.
  intros HPQ. induction l as [|x l IH]; [done|].
  rewrite !filter_cons.
  destruct (decide (P x)) as [HP|HP].
  - rewrite decide_True by auto. by apply sublist_skip.
  - destruct (decide (Q x)); [by apply sublist_cons|done].
Qed.

Lemma filter_filter_same {A : Type} (P : A → Prop)
    `{!∀ x, Decision (P x)} (l : list A) :
  filter P (filter P l) = filter P l.
Proof.
  induction l as [|x l IH]; [done|]. rewrite filter_cons.
  destruct (decide (P x)); [|done].
  rewrite filter_cons_True by done. by f_equal.
Qed.

Lemma filter_filter_not {A : Type} (P : A → Prop)
    `{!∀ x, Decision (P x)} (l : list A) :
  filter (λ x, ¬ P x) (filter P l) = [] ∧ filter P (filter (λ x, ¬ P x) l) = [].
Proof.
  split; induction l as [|x l IH]; try done; rewrite filter_cons.
  - destruct (decide (P x)); [|done]. by rewrite filter_cons_False by tauto.
  - destruct (decide (¬ P x)); [|done]. by rewrite filter_cons_False.
Qed.

End PartitionFacts.

(** X11: the order in which a run iterates over the set of patterns has no
    part in the partition: two runs that differ in it only keep the same
    items, remove the same items and find the same patterns without a
    match. *)
Theorem partition_ignores_iteration_order (fnmatch : string → string → bool)
    (order1 order2 : PySetOrder) (test_patterns : gset string)
    (should_select : bool) (its : list item) :
  @compute_selection fnmatch order1 test_patterns should_select its
  = @compute_selection fnmatch order2 test_patterns should_select its.
Proof. by rewrite !compute_selection_spec. Qed.

(** X12: when selecting, the kept items are the items of the collection
    that some pattern glob-matches by node id or equals by name, and the
    removed items are the others. *)
Theorem select_keeps_the_matched_items (fnmatch : string → string → bool)
    (set_order : PySetOrder) (test_patterns : gset string) (its : list item) :
  let '(kept, removed, _) := compute_selection fnmatch test_patterns true its in
  (∀ it, it ∈ kept
         ↔ it ∈ its ∧ ∃ p, p ∈ test_patterns
                           ∧ (fnmatch (nodeid it) p = true ∨ name it = p))
  ∧ (∀ it, it ∈ removed
           ↔ it ∈ its ∧ ∀ p, p ∈ test_patterns
                             → fnmatch (nodeid it) p = false ∧ name it ≠ p).
Proof.
  rewrite compute_selection_spec. split; intros it;
    rewrite list_elem_of_filter, matched_iff; [tauto|].
  split.
  - intros [Hnone Hin]. split; [done|]. intros p Hp. split.
    + destruct (fnmatch (nodeid it) p) eqn:Hf; [|done].
      destruct Hnone. exists p. auto.
    + intros Hname. destruct Hnone. exists p. auto.
  - intros [Hin Hnone]. split; [|done].
    intros (p & Hp & Hm). destruct (Hnone p Hp) as [Hf Hname].
    destruct Hm; congruence.
Qed.

(** X13: in either mode a pattern is reported as without a match exactly
    when it is in the set and no item of the collection has a node id it
    glob-matches or a name equal to it. *)
Theorem unmatched_patterns_match_no_item (fnmatch : string → string → bool)
    (set_order : PySetOrder) (test_patterns : gset string)
    (should_select : bool) (its : list item) :
  let '(_, _, unmatched) :=
    compute_selection fnmatch test_patterns should_select its in
  ∀ p, p ∈ unmatched
       ↔ p ∈ test_patterns
         ∧ ∀ it, it ∈ its → fnmatch (nodeid it) p = false ∧ name it ≠ p.
Proof.
  rewrite compute_selection_spec.
  assert (∀ p, p ∈ unmatched_patterns fnmatch test_patterns its
               ↔ p ∈ test_patterns
                 ∧ ∀ it, it ∈ its
                         → fnmatch (nodeid it) p = false ∧ name it ≠ p)
    as Hspec.
  { intros p. unfold unmatched_patterns. rewrite elem_of_filter, used_iff.
    split.
    - intros [Hnone Hp]. split; [done|]. intros it Hit. split.
      + destruct (fnmatch (nodeid it) p) eqn:Hf; [|done].
        destruct Hnone. exists it. auto.
      + intros Hname. destruct Hnone. exists it. auto.
    - intros [Hp Hnone]. split; [|done].
      intros (it & Hit & Hm). destruct (Hnone it Hit) as [Hf Hname].
      destruct Hm; congruence. }
  by destruct should_select.
Qed.

(** X14: selecting again from the kept items, with the same patterns, keeps
    all of them, removes nothing and finds the same patterns without a
    match. *)
Theorem selecting_twice_is_selecting_once (fnmatch : string → string → bool)
    (set_order : PySetOrder) (test_patterns : gset string) (its : list item) :
  let '(kept, _, unmatched) :=
    compute_selection fnmatch test_patterns true its in
  compute_selection fnmatch test_patterns true kept = (kept, [], unmatched).
Proof.
  rewrite !compute_selection_spec.
  rewrite filter_filter_same, (proj1 (filter_filter_not _ _)).
  f_equal. apply set_eq. intros p. unfold unmatched_patterns.
  rewrite !elem_of_filter. unfold used. rewrite !Exists_exists.
  split; intros [Hnone Hp]; (split; [|done]); intros (it & Hit & Hm);
    destruct Hnone.
  - exists it. split; [|done]. apply list_elem_of_filter. split; [|done].
    by exists p.
  - exists it. split; [|done]. by apply list_elem_of_filter in Hit as [_ ?].
Qed.

(** X15: deselecting again from the kept items, with the same patterns,
    keeps all of them and removes nothing, and now every pattern is without
    a match. *)
Theorem deselecting_twice_leaves_every_pattern_unmatched
    (fnmatch : string → string → bool) (set_order : PySetOrder)
    (test_patterns : gset string) (its : list item) :
  let '(kept, _, _) := compute_selection fnmatch test_patterns false its in
  compute_selection fnmatch test_patterns false kept
  = (kept, [], test_patterns).
Proof.
  rewrite !compute_selection_spec.
  rewrite filter_filter_same, (proj2 (filter_filter_not _ _)).
  f_equal. apply set_eq. intros p. unfold unmatched_patterns.
  rewrite elem_of_filter. unfold used. rewrite Exists_exists.
  split; [by intros [_ ?]|]. intros Hp. split; [|done].
  intros (it & Hit & Hm). apply list_elem_of_filter in Hit as [Hnot _].
  destruct Hnot. by exists p.
Qed.

(** X16: more patterns select more: when one pattern set is contained in
    another, the items kept for the smaller one are, in order, among those
    kept for the larger one, and the items removed for the larger one are
    among those removed for the smaller one. *)
Theorem more_patterns_keep_more (fnmatch : string → string → bool)
    (set_order : PySetOrder) (patterns more : gset string) (its : list item) :
  patterns ⊆ more →
  let '(kept, removed, _) := compute_selection fnmatch patterns true its in
  let '(kept', removed', _) := compute_selection fnmatch more true its in
  kept `sublist_of` kept' ∧ removed' `sublist_of` removed.
Proof.
  intros Hsub. rewrite !compute_selection_spec.
  assert (∀ it, matched fnmatch patterns it → matched fnmatch more it) as Himp.
  { intros it (p & Hp & Hm). exists p. split; [by apply Hsub|done]. }
  split; apply filter_sublist_impl; [done|]. intros it Hnot Hm.
  by apply Hnot, Himp.
Qed.

Lemma more_patterns_keep_more_witness :
  ({["test_two"]} : gset string) ⊆ {["test_two"; "tests/test_b*"]}
  ∧ [a_two] `sublist_of` [a_two; b_one] ∧ [a_one] `sublist_of` [a_one; b_one].
Proof.
  assert (({["test_two"]} : gset string) ⊆ {["test_two"; "tests/test_b*"]})
    as Hsub by set_solver.
  split; [exact Hsub|].
  pose proof (more_patterns_keep_more Glob.fnmatchcase ascending_order
                {["test_two"]} {["test_two"; "tests/test_b*"]} three_items
                Hsub) as Hmore.
  vm_compute in Hmore. exact Hmore.
Defined.

(** X17: the union of two pattern sets keeps an item exactly when one of
    the two sets keeps it, and leaves without a match the patterns that
    either set leaves without a match. *)
Theorem union_of_pattern_sets (fnmatch : string → string → bool)
    (set_order : PySetOrder) (patterns1 patterns2 : gset string)
    (its : list item) :
  let '(kept1, _, unmatched1) := compute_selection fnmatch patterns1 true its in
  let '(kept2, _, unmatched2) := compute_selection fnmatch patterns2 true its in
  let '(kept, _, unmatched) :=
    compute_selection fnmatch (patterns1 ∪ patterns2) true its in
  (∀ it, it ∈ kept ↔ it ∈ kept1 ∨ it ∈ kept2)
  ∧ unmatched = unmatched1 ∪ unmatched2.
Proof.
  rewrite !compute_selection_spec. split.
  - intros it. rewrite !list_elem_of_filter. unfold matched, set_Exists.
    setoid_rewrite elem_of_union. naive_solver.
  - apply set_eq. intros p. unfold unmatched_patterns.
    rewrite elem_of_union, !elem_of_filter, elem_of_union. tauto.
Qed.

(** X18: a collection made of two parts is partitioned part by part: the
    kept items are those of the first part followed by those of the second,
    likewise the removed items, and a pattern is without a match when it is
    so on both parts. *)
Theorem partition_of_a_concatenation (fnmatch : string → string → bool)
    (set_order : PySetOrder) (test_patterns : gset string)
    (should_select : bool) (its1 its2 : list item) :
  let '(kept1, removed1, unmatched1) :=
    compute_selection fnmatch test_patterns should_select its1 in
  let '(kept2, removed2, unmatched2) :=
    compute_selection fnmatch test_patterns should_select its2 in
  compute_selection fnmatch test_patterns should_select (its1 ++ its2)
  = (kept1 ++ kept2, removed1 ++ removed2, unmatched1 ∩ unmatched2).
Proof.
  rewrite !compute_selection_spec, !filter_app.
  assert (unmatched_patterns fnmatch test_patterns (its1 ++ its2)
          = unmatched_patterns fnmatch test_patterns its1
            ∩ unmatched_patterns fnmatch test_patterns its2) as ->.
  { apply set_eq. intros p. unfold unmatched_patterns, used.
    rewrite elem_of_intersection, !elem_of_filter, Exists_app. tauto. }
  by destruct should_select.
Qed.

(** ** The pattern set *)

Module LoadFacts.
Import PyStr PyStrFacts.

Lemma has_char_app (c : ascii) (a b : string) :
  has_char c (a +:+ b) = has_char c a || has_char c b.
Proof.
  induction a as [|x a IH]; [done|].
  rewrite app_cons. cbn [has_char]. by rewrite IH, orb_assoc.
Qed.

Lemma has_char_strip (c : ascii) (s : string) :
  has_char c s = false → has_char c (strip s) = false.
Proof.
  destruct (strip_spec s) as (l & r & Hs & _). intros Hc.
  rewrite Hs, !has_char_app in Hc.
  by apply orb_false_elim in Hc as [_ [? _]%orb_false_elim].
Qed.

Lemma lstrip_app (a t : string) :
  lstrip (a +:+ t) = if all_space a then lstrip t else lstrip a +:+ t.
Proof.
  induction a as [|c a IH]; [done|].
  rewrite app_cons. cbn [lstrip all_space].
  destruct (isspace c); [exact IH|]. by rewrite app_cons.
Qed.

Lemma rstrip_app_space (a t : string) :
  all_space t = true → rstrip (a +:+ t) = rstrip a.
Proof.
  intros Ht. induction a as [|c a IH].
  - rewrite app_nil. by apply rstrip_empty.
  - rewrite app_cons. cbn [rstrip]. by rewrite IH.
Qed.

(** The line feed that ends a line goes with the trimming. *)
Lemma strip_line_feed (body : string) : strip (body +:+ nl) = strip body.
Proof.
  unfold strip. rewrite lstrip_app.
  destruct (all_space body) eqn:Hb.
  - rewrite (lstrip_all_space body) by done. reflexivity.
  - by apply rstrip_app_space.
Qed.

Lemma lines_body (s line : string) :
  line ∈ TextFile.lines s →
  ∃ body, (line = body ∨ line = body +:+ nl)
          ∧ has_char TextFile.LF body = false.
Proof.
  revert line. induction s as [|c s IH]; intros line; cbn [TextFile.lines].
  - by intros ?%elem_of_nil.
  - destruct (Ascii.eqb c TextFile.LF) eqn:Hc.
    + apply Ascii.eqb_eq in Hc as ->.
      intros [->|Hin]%elem_of_cons; [by exists ""; split; [right|]|by apply IH].
    + destruct (TextFile.lines s) as [|l ls] eqn:Hls.
      * intros ->%list_elem_of_singleton. exists (String c "").
        split; [by left|]. cbn [has_char].
        by rewrite Ascii.eqb_sym, Hc.
      * intros [->|Hin]%elem_of_cons.
        -- destruct (IH l) as (body & Hl & Hbody); [by left|].
           exists (String c body). split.
           ++ destruct Hl as [->| ->]; [by left|by right].
           ++ cbn [has_char]. by rewrite Ascii.eqb_sym, Hc.
        -- apply IH. by right.
Qed.

Lemma lines_has_char (c : ascii) (s line : string) :
  has_char c s = false → line ∈ TextFile.lines s → has_char c line = false.
Proof.
  revert line. induction s as [|x s IH]; intros line; cbn [TextFile.lines].
  - by intros _ ?%elem_of_nil.
  - cbn [has_char]. intros [Hx Hs]%orb_false_elim.
    destruct (Ascii.eqb x TextFile.LF).
    + intros [->|Hin]%elem_of_cons; [|by apply IH].
      cbn [has_char]. by rewrite Hx.
    + destruct (TextFile.lines s) as [|l ls] eqn:Hls.
      * intros ->%list_elem_of_singleton. cbn [has_char]. by rewrite Hx.
      * intros [->|Hin]%elem_of_cons.
        -- cbn [has_char]. rewrite Hx. cbn [orb]. apply IH; [done|by left].
        -- apply IH; [done|by right].
Qed.

(** Reading with universal newlines leaves no carriage return. *)
Lemma universal_newlines_no_CR (s : string) :
  has_char TextFile.CR (TextFile.universal_newlines s) = false.
Proof.
  induction s as [|c s IH]; [done|].
  cbn [TextFile.universal_newlines].
  destruct (Ascii.eqb c TextFile.CR) eqn:Hc.
  - destruct s as [|c' s']; [done|].
    destruct (Ascii.eqb c' TextFile.LF) eqn:Hc'; [|exact IH].
    apply Ascii.eqb_eq in Hc' as ->.
    cbn [TextFile.universal_newlines] in IH. exact IH.
  - cbn [has_char]. by rewrite Ascii.eqb_sym, Hc.
Qed.

End LoadFacts.

(** X19: no loaded pattern begins or ends with white space. *)
Theorem patterns_have_no_outer_white_space (selection_file : list string)
    (p : string) :
  p ∈ load_patterns selection_file →
  (∀ c, PyStr.first p = Some c → PyStr.isspace c = false)
  ∧ (∀ c, PyStr.last p = Some c → PyStr.isspace c = false).
Proof.
  intros (line & _ & _ & ->)%elem_of_load_patterns.
  destruct (PyStrFacts.strip_spec line) as (l & r & _ & _ & _ & Hf & Hl).
  by split.
Qed.

Lemma patterns_have_no_outer_white_space_witness :
  "foo" ∈ load_patterns (TextFile.iter padded_file)
  ∧ (∀ c, PyStr.first "foo" = Some c → PyStr.isspace c = false)
  ∧ (∀ c, PyStr.last "foo" = Some c → PyStr.isspace c = false).
Proof.
  assert ("foo" ∈ load_patterns (TextFile.iter padded_file)) as Hin
    by (vm_compute; set_solver).
  split; [exact Hin|].
  exact (patterns_have_no_outer_white_space _ _ Hin).
Defined.

(** X20: the pattern set of lines put one after the other is the union of
    the pattern sets; so neither the order of the lines nor a repeated line
    changes the set: two files with the same lines give the same set. *)
Theorem load_patterns_is_a_union_over_lines (file1 file2 : list string) :
  load_patterns (file1 ++ file2) = load_patterns file1 ∪ load_patterns file2
  ∧ ((∀ line, line ∈ file1 ↔ line ∈ file2)
     → load_patterns file1 = load_patterns file2).
Proof.
  split.
  - apply set_eq. intros p.
    rewrite elem_of_union, !elem_of_load_patterns.
    setoid_rewrite elem_of_app. naive_solver.
  - intros Hsame. apply set_eq. intros p. rewrite !elem_of_load_patterns.
    by setoid_rewrite Hsame.
Qed.

Lemma load_patterns_is_a_union_over_lines_witness :
  (∀ line, line ∈ ["a" +:+ nl; "b" +:+ nl; "a" +:+ nl]
           ↔ line ∈ ["b" +:+ nl; "a" +:+ nl])
  ∧ load_patterns ["a" +:+ nl; "b" +:+ nl; "a" +:+ nl]
    = load_patterns ["b" +:+ nl; "a" +:+ nl].
Proof.
  assert (∀ line, line ∈ ["a" +:+ nl; "b" +:+ nl; "a" +:+ nl]
                  ↔ line ∈ ["b" +:+ nl; "a" +:+ nl]) as Hsame
    by (intros line; rewrite !elem_of_cons; naive_solver).
  split; [exact Hsame|].
  exact (proj2 (load_patterns_is_a_union_over_lines _ _) Hsame).
Defined.

(** X21: the pattern set is empty exactly when every line of the file
    begins with [#]; a file without lines is such a file, a file with a
    blank line is not. *)
Theorem no_patterns_iff_only_comments (selection_file : list string) :
  load_patterns selection_file = ∅
  ↔ ∀ line, line ∈ selection_file → PyStr.first line = Some "#"%char.
Proof.
  split.
  - intros Hempty line Hin.
    destruct (decide (PyStr.first line = Some "#"%char)) as [|Hnot]; [done|].
    assert (PyStr.strip line ∈ load_patterns selection_file) as Hp
      by (apply elem_of_load_patterns; by exists line).
    rewrite Hempty in Hp. by apply elem_of_empty in Hp.
  - intros Hall. apply set_eq. intros p. rewrite elem_of_load_patterns.
    split; [|by intros ?%elem_of_empty].
    intros (line & Hin & Hnot & _). destruct Hnot. by apply Hall.
Qed.

(** X22: a pattern read from a file holds no line feed and no carriage
    return: the iteration ends each line at its line feed, which the
    trimming removes. *)
Theorem patterns_of_a_file_hold_no_line_break (text p : string) :
  p ∈ load_patterns (TextFile.iter text) →
  has_char TextFile.LF p = false ∧ has_char TextFile.CR p = false.
Proof.
  intros (line & Hin & _ & ->)%elem_of_load_patterns. unfold TextFile.iter in Hin.
  split.
  - destruct (LoadFacts.lines_body _ _ Hin) as (body & [->| ->] & Hbody).
    + by apply LoadFacts.has_char_strip.
    + rewrite LoadFacts.strip_line_feed. by apply LoadFacts.has_char_strip.
  - apply LoadFacts.has_char_strip.
    eapply LoadFacts.lines_has_char; [|exact Hin].
    apply LoadFacts.universal_newlines_no_CR.
Qed.

Lemma patterns_of_a_file_hold_no_line_break_witness :
  "test_one" ∈ load_patterns
                 (TextFile.iter ("test_one" +:+ cr +:+ nl +:+ "test_two"))
  ∧ has_char TextFile.LF "test_one" = false
  ∧ has_char TextFile.CR "test_one" = false.
Proof.
  assert ("test_one" ∈ load_patterns
            (TextFile.iter ("test_one" +:+ cr +:+ nl +:+ "test_two"))) as Hin
    by (vm_compute; set_solver).
  split; [exact Hin|].
  exact (patterns_of_a_file_hold_no_line_break _ _ Hin).
Defined.

(** X23: with a single pattern without a match the message does not depend
    on the iteration order: it is the header followed by that pattern. *)
Theorem message_of_a_single_pattern (set_order : PySetOrder) (p : string) :
  missing_message {[p]} = missing_header +:+ p.
Proof.
  unfold missing_message. f_equal.
  assert (set_iter {[p]} = [p]) as Hiter.
  { apply Permutation_singleton_r.
    rewrite (set_iter_perm {[p]}). by rewrite elements_singleton. }
  rewrite Hiter. reflexivity.
Qed.
